(** * Test-automation server: selection, reconciliation and step extraction

    A shallow embedding of the Python sources [utils.py], [jira_client.py],
    [dependency_resolver.py] and [main.py], and the properties of the
    specification proved over it.

    Conventions of the embedding.
    - A Python [str] is a [string]; a character is a code point below 256.
    - A Python [set] of keys is a [gset string]; a Python list is a [list].
    - A call that may raise returns a [Result]; code that reads or writes the
      results file or the execution logs runs in the monad [M] over [World].
    - [print] and [logger] calls have no effect on any returned value and
      are left out; the server log they write is not part of [World], whose
      [logs] are the execution logs of the tests. *)

From stdpp Require Import base gmap list strings.
From Stdlib Require Import Ascii.
From Stdlib Require String.
From Stdlib Require DecimalString.

(** ** Python string operations *)

Module PyStr.

(** [c.isspace()] for a one-character [str] whose code point is below 256. *)
Definition isspace (c : ascii) : bool :=
  match c with
  | "009" | "010" | "011" | "012" | "013"
  | "028" | "029" | "030" | "031" | " " | "133" | "160" => true
  | _ => false
  end%char.

(** [s.lstrip()] *)
Fixpoint lstrip (s : string) : string :=
  match s with
  | EmptyString => EmptyString
  | String c s' => if isspace c then lstrip s' else s
  end.

(** [s.rstrip()] *)
Fixpoint rstrip (s : string) : string :=
  match s with
  | EmptyString => EmptyString
  | String c s' =>
      match rstrip s' with
      | EmptyString => if isspace c then EmptyString else String c EmptyString
      | t => String c t
      end
  end.

(** [s.strip()] *)
Definition strip (s : string) : string := rstrip (lstrip s).

(** [bool(s)]: a [str] is truthy when it is not empty. *)
Definition truthy (s : string) : bool :=
  match s with EmptyString => false | String _ _ => true end.

(** [s.split(sep)] for a one-character separator. *)
Fixpoint split (sep : ascii) (s : string) : list string :=
  match s with
  | EmptyString => [EmptyString]
  | String c s' =>
      if Ascii.eqb c sep then EmptyString :: split sep s'
      else match split sep s' with
           | [] => [String c EmptyString]
           | w :: ws => String c w :: ws
           end
  end.

(** [s.startswith(p)] *)
Fixpoint startswith (p s : string) : bool :=
  match p, s with
  | EmptyString, _ => true
  | String _ _, EmptyString => false
  | String a p', String b s' => Ascii.eqb a b && startswith p' s'
  end.

(** [sub in s] *)
Fixpoint contains (sub s : string) : bool :=
  startswith sub s
  || match s with
     | EmptyString => false
     | String _ s' => contains sub s'
     end.

(** [c.lower()] for a code point below 256: the letters A to Z and the
    accented capitals 192 to 222, the sign 215 apart, move up by 32. *)
Definition lower_char (c : ascii) : ascii :=
  let n := nat_of_ascii c in
  if (65 <=? n)%nat && (n <=? 90)%nat
     || (192 <=? n)%nat && (n <=? 222)%nat && negb (n =? 215)%nat
  then ascii_of_nat (n + 32) else c.

Fixpoint lower (s : string) : string :=
  match s with
  | EmptyString => EmptyString
  | String c s' => String (lower_char c) (lower s')
  end.

(** [s[n:]] *)
Fixpoint drop (n : nat) (s : string) : string :=
  match n, s with
  | O, _ => s
  | S n', String _ s' => drop n' s'
  | S _, EmptyString => EmptyString
  end.

(** Splits [s] at the first occurrence of [sub]: the text before it and the
    text after it. *)
Fixpoint partition (sub s : string) : option (string * string) :=
  if startswith sub s then Some (EmptyString, drop (String.length sub) s)
  else match s with
       | EmptyString => None
       | String c s' =>
           match partition sub s' with
           | Some (before, after) => Some (String c before, after)
           | None => None
           end
       end.

(** [re.findall(open + '(.*?)' + close, s, re.DOTALL)] for literal [open]
    and [close]: the leftmost [open], the shortest text up to the next
    [close], and again from the end of that match. [fuel] bounds the number
    of matches. *)
Fixpoint findall_between (fuel : nat) (opn cls s : string) : list string :=
  match fuel with
  | O => []
  | S fuel' =>
      match partition opn s with
      | None => []
      | Some (_, after_open) =>
          match partition cls after_open with
          | None => []
          | Some (group, rest) => group :: findall_between fuel' opn cls rest
          end
      end
  end.

Definition findall (opn cls s : string) : list string :=
  findall_between (String.length s) opn cls s.

(** First and last character, when there is one. *)
Definition first_char (s : string) : option ascii :=
  match s with EmptyString => None | String c _ => Some c end.

Fixpoint last_char (s : string) : option ascii :=
  match s with
  | EmptyString => None
  | String c EmptyString => Some c
  | String _ s' => last_char s'
  end.

(** A text has no leading and no trailing whitespace. *)
Definition trimmed (s : string) : bool :=
  match first_char s, last_char s with
  | Some a, Some b => negb (isspace a) && negb (isspace b)
  | _, _ => true
  end.

End PyStr.

Definition newline : ascii := "010"%char.
Definition pipe : ascii := "|"%char.
Definition dquote : ascii := "034"%char.

(** [x in l] for a list of [str]. *)
Definition in_list (x : string) (l : list string) : bool :=
  existsb (String.eqb x) l.

(** ** Exceptions

    [Raise msg] is a raised exception whose [str(e)] is [msg]. *)

Inductive Result (A : Type) : Type :=
  | Ok (a : A)
  | Raise (msg : string).
Arguments Ok {A} a.
Arguments Raise {A} msg.

(** ** models.py and the dictionaries built from it *)

Record TestStep := mkTestStep {
  test : string;
  test_step : string;
  expected_output : string
}.

(** The dictionary [_process_test_case] returns. *)
Record TestCase := mkTestCase {
  key : string;
  id_ : string;
  summary : string;
  status : string;
  test_steps : list TestStep
}.

(** [TestStepResult] *)
Record TestStepResult := mkTestStepResult {
  sr_test_step : string;
  sr_log_or_error : string;
  sr_result : string;
  sr_timestamp : string
}.

(** [TestResultSubmission] *)
Record TestResultSubmission := mkSubmission {
  sub_test_case_key : string;
  sub_results : list TestStepResult;
  sub_overall_result : string
}.

(** A record of the results file, [TestResult]; the time is the text that
    [json.dump(..., default=str)] writes for it. *)
Record TestResult := mkTestResult {
  test_case_key : string;
  steps_results : list TestStepResult;
  overall_result : string;
  timestamp : string
}.

(** ** jira_client.py: extraction of the steps from a description *)

(** [[cell.strip() for cell in cells if cell.strip()]] *)
Definition clean_cells (cells : list string) : list string :=
  map PyStr.strip (List.filter (fun cell => PyStr.truthy (PyStr.strip cell)) cells).

(** The step appended for a row whose [cells] are at least three. *)
Definition step_of_cells (cells : list string) : TestStep :=
  {| test := nth 0 cells EmptyString;
     test_step := nth 1 cells EmptyString;
     expected_output := nth 2 cells EmptyString |}.

(** The loop over the lines of a pipe table, with its two variables
    [header_found] and [test_steps]. *)
Fixpoint pipe_table_loop (lines : list string) (header_found : bool)
    (test_steps : list TestStep) : list TestStep :=
  match lines with
  | [] => test_steps
  | line :: lines' =>
      if PyStr.startswith "||" line && negb header_found
      then pipe_table_loop lines' true test_steps
      else if PyStr.startswith "|" line && header_found
      then
        let cells := clean_cells (PyStr.split pipe line) in
        if (3 <=? length cells)%nat
        then pipe_table_loop lines' header_found
               (test_steps ++ [step_of_cells cells])
        else pipe_table_loop lines' header_found test_steps
      else pipe_table_loop lines' header_found test_steps
  end.

(** The loop over [rows[1:]] of an HTML table. *)
Fixpoint html_table_loop (rows : list string) (test_steps : list TestStep)
    : list TestStep :=
  match rows with
  | [] => test_steps
  | row :: rows' =>
      let cells := PyStr.findall "<td>" "</td>" row in
      if (3 <=? length cells)%nat
      then html_table_loop rows' (test_steps ++ [step_of_cells cells])
      else html_table_loop rows' test_steps
  end.

Definition _extract_test_steps_from_description (description : string)
    : list TestStep :=
  if PyStr.contains "||" description
  then pipe_table_loop (PyStr.split newline description) false []
  else if PyStr.contains "<table>" description
          || PyStr.contains "<tbody>" description
  then html_table_loop (tail (PyStr.findall "<tr>" "</tr>" description)) []
  else [].

(** ** The tracker, as the [jira] library presents it

    An attribute that the code tests with [hasattr] or for truth is an
    [option]. The two labels of a link type are read without a test:
    there [None] is an attribute that is missing or null, and reading it
    raises [AttributeError]. *)

Record IssueLinkType := mkLinkType {
  name : option string;
  inward : option string
}.

(** [inwardIssue] and [outwardIssue] hold the key of the linked issue. *)
Record IssueLink := mkLink {
  inwardIssue : option string;
  outwardIssue : option string;
  type_ : IssueLinkType
}.

Record Issue := mkIssue {
  issue_key : string;
  issue_id : string;
  fields_summary : string;
  fields_status_name : string;
  fields_description : option string;
  fields_issuelinks : option (list IssueLink)
}.

(** The handle [self.jira]: what the tracker answers to a search and to the
    fetch of one issue. It answers the same question alike within one
    operation of the server. *)
Record JIRA := mkJIRA {
  search_issues : string -> nat -> Result (list Issue);
  issue : string -> Result Issue
}.

Record JiraClient := mkJiraClient {
  jira_url : string;
  project_key : string;
  jira : JIRA
}.

(** [attr.lower()] on a label that may be missing. The text of the
    exception is not modelled: "AttributeError" stands for the message of
    the [AttributeError] that Python raises. *)
Definition label_lower (label : option string) : Result string :=
  match label with
  | Some s => Ok (PyStr.lower s)
  | None => Raise "AttributeError"
  end.

(** The [if]/[elif] on one link, the same text in
    [JiraClient._find_blocking_issues] and in
    [DependencyResolver._find_dependencies]: the key it appends, if any. *)
Definition link_blocker (link : IssueLink) : Result (option string) :=
  let second :=
    match outwardIssue link with
    | None => Ok None
    | Some outward_key =>
        match label_lower (name (type_ link)) with
        | Raise e => Raise e
        | Ok n =>
            if String.eqb n "blocks"
            then match label_lower (inward (type_ link)) with
                 | Raise e => Raise e
                 | Ok i => if PyStr.contains "outward" i
                           then Ok (Some outward_key) else Ok None
                 end
            else Ok None
        end
    end in
  match inwardIssue link with
  | None => second
  | Some inward_key =>
      match label_lower (name (type_ link)) with
      | Raise e => Raise e
      | Ok n => if in_list n ["blocks"; "is blocked by"]
                then Ok (Some inward_key) else second
      end
  end.

(** [bool(x)] of an optional list or text. *)
Definition nonempty_list {A} (o : option (list A)) : list A :=
  match o with Some l => l | None => [] end.

Definition truthy_text (o : option string) : option string :=
  match o with
  | Some d => if PyStr.truthy d then Some d else None
  | None => None
  end.

(** The loop of [_find_blocking_issues]; an exception leaves the function. *)
Fixpoint blocking_loop (links : list IssueLink) (blocking_issues : list string)
    : Result (list string) :=
  match links with
  | [] => Ok blocking_issues
  | link :: links' =>
      match link_blocker link with
      | Raise e => Raise e
      | Ok (Some k) => blocking_loop links' (blocking_issues ++ [k])
      | Ok None => blocking_loop links' blocking_issues
      end
  end.

Definition _find_blocking_issues (i : Issue) : Result (list string) :=
  blocking_loop (nonempty_list (fields_issuelinks i)) [].

(** The loop of [_process_test_case] over the blocking keys: a fetch that
    raises is caught and the key contributes nothing. *)
Fixpoint blocking_steps_loop (j : JIRA) (keys : list string)
    (blocking_steps : list TestStep) : list TestStep :=
  match keys with
  | [] => blocking_steps
  | blocking_key :: keys' =>
      match issue j blocking_key with
      | Ok blocking_issue =>
          match truthy_text (fields_description blocking_issue) with
          | Some d =>
              blocking_steps_loop j keys'
                (blocking_steps ++ _extract_test_steps_from_description d)
          | None => blocking_steps_loop j keys' blocking_steps
          end
      | Raise _ => blocking_steps_loop j keys' blocking_steps
      end
  end.

Definition own_steps (i : Issue) : list TestStep :=
  match truthy_text (fields_description i) with
  | Some d => _extract_test_steps_from_description d
  | None => []
  end.

Definition _process_test_case (self : JiraClient) (i : Issue) : Result TestCase :=
  match _find_blocking_issues i with
  | Raise e => Raise e
  | Ok blocking_issue_keys =>
      let steps :=
        match blocking_issue_keys with
        | [] => own_steps i
        | _ :: _ =>
            blocking_steps_loop (jira self) blocking_issue_keys [] ++ own_steps i
        end in
      Ok {| key := issue_key i; id_ := issue_id i;
            summary := fields_summary i; status := fields_status_name i;
            test_steps := steps |}
  end.

(** The loop of [get_test_cases_by_status]; a test case is a dictionary
    with five entries, so [if test_case] always holds. *)
Fixpoint process_loop (self : JiraClient) (issues : list Issue)
    (test_cases : list TestCase) : Result (list TestCase) :=
  match issues with
  | [] => Ok test_cases
  | i :: issues' =>
      match _process_test_case self i with
      | Raise e => Raise e
      | Ok test_case => process_loop self issues' (test_cases ++ [test_case])
      end
  end.

Definition jql_query (project_key status : string) : string :=
  "project = " +:+ project_key +:+ " AND status = "
  +:+ String dquote status +:+ String dquote " ORDER BY created DESC".

Definition get_test_cases_by_status (self : JiraClient) (status : string)
    : Result (list TestCase) :=
  match search_issues (jira self) (jql_query (project_key self) status) 100 with
  | Raise e => Raise e
  | Ok issues => process_loop self issues []
  end.

(** [None] when the fetch or the processing raises. *)
Definition get_test_case_by_key (self : JiraClient) (issue_key : string)
    : option TestCase :=
  match issue (jira self) issue_key with
  | Raise _ => None
  | Ok i =>
      match _process_test_case self i with
      | Raise _ => None
      | Ok test_case => Some test_case
      end
  end.

(** ** The files of the server

    [results_file] is what [settings.RESULTS_FILE] holds. [writes] gives the
    outcome of each coming attempt to write it, in order, and a write
    succeeds once the list is used up. [logs] are the lines appended to the
    execution logs, each with the key that names its file. *)

Inductive ResultsFile : Type :=
  | FileMissing                                   (* open raises FileNotFoundError *)
  | FileUndecodable                               (* json.load raises JSONDecodeError *)
  | FileUnreadable                                (* open or read raises another exception *)
  | FileJson (test_results : list TestResult).   (* {"test_results": [...]} *)

Inductive WriteOutcome : Type :=
  | Written       (* the document is written *)
  | OpenFails     (* open(..., 'w') raises: the file is left as it is *)
  | DumpFails.    (* json.dump raises after the file was truncated *)

Record World := mkWorld {
  results_file : ResultsFile;
  writes : list WriteOutcome;
  logs_writable : bool;
  logs : list (string * string);
  now : string;        (* str(datetime.now()) *)
  now_stamp : string   (* datetime.now().strftime("%Y-%m-%d %H:%M:%S") *)
}.

Definition set_results_file (f : ResultsFile) (ws : list WriteOutcome)
    (w : World) : World :=
  {| results_file := f; writes := ws; logs_writable := logs_writable w;
     logs := logs w; now := now w; now_stamp := now_stamp w |}.

Definition add_log (entry : string * string) (w : World) : World :=
  {| results_file := results_file w; writes := writes w;
     logs_writable := logs_writable w; logs := logs w ++ [entry];
     now := now w; now_stamp := now_stamp w |}.

(** Computations over the files that may raise. *)
Definition M (A : Type) : Type := World -> Result A * World.

Definition ret {A} (a : A) : M A := fun w => (Ok a, w).

Definition bind {A B} (m : M A) (k : A -> M B) : M B :=
  fun w =>
    match m w with
    | (Ok a, w') => k a w'
    | (Raise e, w') => (Raise e, w')
    end.

Definition lift {A} (r : Result A) : M A := fun w => (r, w).

(** [try: m except Exception as e: handler(str(e))] *)
Definition try_except {A} (m : M A) (handler : string -> M A) : M A :=
  fun w =>
    match m w with
    | (Ok a, w') => (Ok a, w')
    | (Raise e, w') => handler e w'
    end.

Notation "x <- m ;; k" := (bind m (fun x => k))
  (at level 100, m at next level, right associativity).

(** ** utils.py *)

Definition save_test_results (results : list TestResult) : M bool :=
  fun w =>
    match writes w with
    | [] => (Ok true, set_results_file (FileJson results) [] w)
    | Written :: ws => (Ok true, set_results_file (FileJson results) ws w)
    | OpenFails :: ws => (Ok false, set_results_file (results_file w) ws w)
    | DumpFails :: ws => (Ok false, set_results_file FileUndecodable ws w)
    end.

Definition load_test_results : M (list TestResult) :=
  fun w =>
    match results_file w with
    | FileJson results => (Ok results, w)
    | FileMissing | FileUndecodable =>
        (_ <- save_test_results [] ;; ret []) w
    | FileUnreadable => (Raise "OSError", w)
    end.

(** The [for i, result in enumerate(...)] of [update_test_result]: the index
    at which the loop finds the key and returns, counted from [i]. *)
Fixpoint existing_index (k : string) (i : nat) (results : list TestResult)
    : option nat :=
  match results with
  | [] => None
  | result :: results' =>
      if String.eqb (test_case_key result) k then Some i
      else existing_index k (S i) results'
  end.

(** The collection that [update_test_result] hands to [save_test_results]. *)
Definition updated_results (test_result : TestResult)
    (results : list TestResult) : list TestResult :=
  match existing_index (test_case_key test_result) 0 results with
  | Some i => <[i := test_result]> results
  | None => results ++ [test_result]
  end.

Definition update_test_result (test_result : TestResult) : M bool :=
  results <- load_test_results ;;
  save_test_results (updated_results test_result results).

(** [[r["test_case_key"] for r in results if r.get("overall_result") in
    ["Pass", "Fail"]]] *)
Definition completed_of (results : list TestResult) : list string :=
  map test_case_key
    (List.filter (fun result => in_list (overall_result result) ["Pass"; "Fail"])
       results).

Definition get_completed_test_keys : M (list string) :=
  results <- load_test_results ;;
  ret (completed_of results).

Definition log_test_execution (test_case_key message : string) : M unit :=
  fun w =>
    if logs_writable w
    then (Ok tt,
          add_log (test_case_key,
                   "[" +:+ now_stamp w +:+ "] " +:+ message +:+ String newline "") w)
    else (Raise "OSError", w).

Definition is_test_completed (test_case_key : string) : M bool :=
  completed_keys <- get_completed_test_keys ;;
  ret (in_list test_case_key completed_keys).

(** ** dependency_resolver.py *)

Record DependencyResolver := mkResolver {
  jira_client : JiraClient;
  completed_tests : gset string
}.

(** [DependencyResolver(jira_client)] *)
Definition new_resolver (jira_client : JiraClient) : M DependencyResolver :=
  completed_keys <- get_completed_test_keys ;;
  ret {| jira_client := jira_client;
         completed_tests := list_to_set completed_keys |}.

Definition refresh_completed_tests (self : DependencyResolver)
    : M DependencyResolver :=
  completed_keys <- get_completed_test_keys ;;
  ret {| jira_client := jira_client self;
         completed_tests := list_to_set completed_keys |}.

(** The loop of [_find_dependencies] inside its [try]: the [except] clause
    ends it and keeps the keys appended so far. *)
Fixpoint dependencies_loop (links : list IssueLink) (dependencies : list string)
    : list string :=
  match links with
  | [] => dependencies
  | link :: links' =>
      match link_blocker link with
      | Raise _ => dependencies
      | Ok (Some k) => dependencies_loop links' (dependencies ++ [k])
      | Ok None => dependencies_loop links' dependencies
      end
  end.

Definition _find_dependencies (self : DependencyResolver) (test_key : string)
    : list string :=
  match get_test_case_by_key (jira_client self) test_key with
  | None => []
  | Some _ =>
      match issue (jira (jira_client self)) test_key with
      | Raise _ => []
      | Ok i => dependencies_loop (nonempty_list (fields_issuelinks i)) []
      end
  end.

Definition _can_execute_test (self : DependencyResolver) (test : TestCase)
    : bool :=
  if bool_decide (key test ∈ completed_tests self) then false
  else
    let dependencies := _find_dependencies self (key test) in
    forallb (fun dep_key => bool_decide (dep_key ∈ completed_tests self))
      dependencies.

(** The loop of [find_executable_tests]. *)
Fixpoint executable_loop (self : DependencyResolver) (test_cases : list TestCase)
    (executable_tests : list TestCase) : list TestCase :=
  match test_cases with
  | [] => executable_tests
  | test :: test_cases' =>
      if _can_execute_test self test
      then executable_loop self test_cases' (executable_tests ++ [test])
      else executable_loop self test_cases' executable_tests
  end.

Definition find_executable_tests (self : DependencyResolver) (status : string)
    : Result (list TestCase) :=
  match get_test_cases_by_status (jira_client self) status with
  | Raise e => Raise e
  | Ok test_cases => Ok (executable_loop self test_cases [])
  end.

Definition get_next_test (self : DependencyResolver) : Result (option TestCase) :=
  match find_executable_tests self "To Do" with
  | Raise e => Raise e
  | Ok [] => Ok None
  | Ok (first :: _) => Ok (Some first)
  end.

Definition gather_test_with_dependencies (self : DependencyResolver)
    (test_key : string) : option TestCase :=
  get_test_case_by_key (jira_client self) test_key.

(** ** main.py *)

(** The entry of ["incomplete_tests"]: key, summary and status. *)
Record IncompleteTest := mkIncompleteTest {
  it_key : string;
  it_summary : string;
  it_status : string
}.

Inductive Content : Type :=
  | IncompleteTests (incomplete_tests : list IncompleteTest) (count : nat)
  | Message (message : string)
  | ResultsSaved (message status : string) (has_more_tests : bool)
      (remaining_test_count : nat).

Inductive Response : Type :=
  | JSONResponse (status_code : nat) (content : Content)
  | HTTPException (status_code : nat) (detail : string).

(** [{test["key"] for test in tests}] *)
Definition key_set (tests : list TestCase) : gset string :=
  list_to_set (map key tests).

(** [active_keys - done_keys - set(completed_keys)], with
    [active_keys = todo_keys.union(in_progress_keys)]. *)
Definition incomplete_keys (todo_tests in_progress_tests done_tests : list TestCase)
    (completed_keys : list string) : gset string :=
  let todo_keys := key_set todo_tests in
  let in_progress_keys := key_set in_progress_tests in
  let done_keys := key_set done_tests in
  let active_keys := todo_keys ∪ in_progress_keys in
  active_keys ∖ done_keys ∖ list_to_set completed_keys.

(** The loop over [todo_tests + in_progress_tests]. *)
Fixpoint incomplete_loop (tests : list TestCase) (keys : gset string)
    (incomplete_tests : list IncompleteTest) : list IncompleteTest :=
  match tests with
  | [] => incomplete_tests
  | test :: tests' =>
      if bool_decide (key test ∈ keys)
      then incomplete_loop tests' keys
             (incomplete_tests
              ++ [{| it_key := key test; it_summary := summary test;
                     it_status := status test |}])
      else incomplete_loop tests' keys incomplete_tests
  end.

(** [except Exception as e: raise HTTPException(status_code=500, detail=str(e))] *)
Definition server_error (e : string) : M Response :=
  ret (HTTPException 500 e).

Definition get_incomplete_tests (jira_client : JiraClient) : M Response :=
  try_except
    (todo_tests <- lift (get_test_cases_by_status jira_client "To Do") ;;
     in_progress_tests <- lift (get_test_cases_by_status jira_client "In Progress") ;;
     done_tests <- lift (get_test_cases_by_status jira_client "Done") ;;
     completed_keys <- get_completed_test_keys ;;
     let keys :=
       incomplete_keys todo_tests in_progress_tests done_tests completed_keys in
     let incomplete_tests :=
       incomplete_loop (todo_tests ++ in_progress_tests) keys [] in
     ret (JSONResponse 200
            (IncompleteTests incomplete_tests (length incomplete_tests))))
    server_error.

(** The record [send_test_results] builds from a submission, at the time
    [timestamp]. *)
Definition submitted_record (submission : TestResultSubmission)
    (timestamp : string) : TestResult :=
  {| test_case_key := sub_test_case_key submission;
     steps_results := sub_results submission;
     overall_result := sub_overall_result submission;
     timestamp := timestamp |}.

Definition send_test_results (submission : TestResultSubmission)
    (jira_client : JiraClient) : M Response :=
  try_except
    (fun w =>
       let test_result := submitted_record submission (now w) in
       (update_successful <- update_test_result test_result ;;
        if negb update_successful
        then ret (JSONResponse 500 (Message "Failed to update test results"))
        else
          completed_keys <- get_completed_test_keys ;;
          _ <- log_test_execution (sub_test_case_key submission)
                 ("Test completed with result: " +:+ sub_overall_result submission) ;;
          todo_tests <- lift (get_test_cases_by_status jira_client "To Do") ;;
          in_progress_tests <- lift (get_test_cases_by_status jira_client "In Progress") ;;
          done_tests <- lift (get_test_cases_by_status jira_client "Done") ;;
          let keys :=
            incomplete_keys todo_tests in_progress_tests done_tests completed_keys in
          ret (JSONResponse 200
                 (ResultsSaved "Test results saved successfully" "completed"
                    (0 <? size keys)%nat (size keys)))) w)
    server_error.

(** ** prompt_generator.py *)

Definition nl : string := String newline EmptyString.
Definition quote : string := String dquote EmptyString.

(** The text of the prompt before the title. *)
Definition prompt_opening : string :=
  "You are an AI test operator. Automate the following test case by performing each step." +:+ nl
  +:+ nl
  +:+ "If any intermediate UI state, confirmation, or popup appears, handle it automatically without asking for input." +:+ nl
  +:+ nl
  +:+ "After executing all steps, return only a JSON array with objects containing:" +:+ nl
  +:+ "- test_step: action performed (do not include markdown formatting like ** in this value)" +:+ nl
  +:+ "- log_or_error: success message or error" +:+ nl
  +:+ "- result: " +:+ quote +:+ "Pass" +:+ quote +:+ " or " +:+ quote +:+ "Fail" +:+ quote +:+ nl
  +:+ "- timestamp: current time in ISO 8601 format" +:+ nl
  +:+ nl
  +:+ "IMPORTANT: Ensure your JSON response is valid and parseable. Do not include any markdown formatting characters in the JSON values." +:+ nl
  +:+ nl
  +:+ "Test Case: **".

(** The text between the title and the key. *)
Definition prompt_before_key : string :=
  "**  " +:+ nl
  +:+ "Test Case Key: **".

(** The text between the key and the steps. *)
Definition prompt_before_steps : string :=
  "**" +:+ nl
  +:+ nl
  +:+ "Steps:".

(** The final instruction, appended after the steps. *)
Definition prompt_closing : string :=
  nl
  +:+ nl
  +:+ "IMPORTANT FORMATTING INSTRUCTIONS:" +:+ nl
  +:+ "1. Return ONLY the final JSON array with no other text" +:+ nl
  +:+ "2. Do NOT include markdown formatting like ** in your JSON values" +:+ nl
  +:+ "3. Ensure all JSON values are properly escaped" +:+ nl
  +:+ "4. Example format:" +:+ nl
  +:+ "[" +:+ nl
  +:+ "  {" +:+ nl
  +:+ "    " +:+ quote +:+ "test_step" +:+ quote +:+ ": " +:+ quote +:+ "Launch browser and go to https://example.com" +:+ quote +:+ "," +:+ nl
  +:+ "    " +:+ quote +:+ "log_or_error" +:+ quote +:+ ": " +:+ quote +:+ "Homepage loaded successfully" +:+ quote +:+ "," +:+ nl
  +:+ "    " +:+ quote +:+ "result" +:+ quote +:+ ": " +:+ quote +:+ "Pass" +:+ quote +:+ "," +:+ nl
  +:+ "    " +:+ quote +:+ "timestamp" +:+ quote +:+ ": " +:+ quote +:+ "2023-05-01T10:15:00Z" +:+ quote +:+ nl
  +:+ "  }" +:+ nl
  +:+ "]" +:+ nl.

(** [str(i)] of a number. *)
Definition str_of_nat (n : nat) : string :=
  DecimalString.NilZero.string_of_uint (Nat.to_uint n).

(** The text the loop adds for the step numbered [i]. *)
Definition step_text (i : nat) (step : TestStep) : string :=
  nl +:+ str_of_nat i +:+ ". **" +:+ test_step step +:+ "**" +:+ nl
  +:+ "   Expected Result: " +:+ expected_output step.

(** The loop [for i, step in enumerate(steps, 1)]. *)
Fixpoint prompt_steps_loop (i : nat) (steps : list TestStep) (prompt : string)
    : string :=
  match steps with
  | [] => prompt
  | step :: steps' => prompt_steps_loop (S i) steps' (prompt +:+ step_text i step)
  end.

(** The dictionaries that reach [generate_prompt] are those of
    [_process_test_case], which have every entry, so no default of a [get]
    is used and nothing in the [try] raises. *)
Definition generate_prompt (test_case : TestCase) : string :=
  let title := summary test_case in
  let key := key test_case in
  let steps := test_steps test_case in
  let prompt :=
    prompt_opening +:+ title +:+ prompt_before_key +:+ key
    +:+ prompt_before_steps in
  let prompt := prompt_steps_loop 1 steps prompt in
  prompt +:+ prompt_closing.

(** ** main.py: the prompt endpoint *)

(** [TestPromptRequest]: the key may be left out. *)
Record TestPromptRequest := mkPromptRequest {
  req_test_case_key : option string
}.

(** The answers of [get_test_prompt]: those of the other endpoints, and the
    content [{"prompt": prompt}] with status 200. *)
Inductive PromptResponse : Type :=
  | Answer (r : Response)
  | PromptContent (prompt : string).

(** The key as an f-string prints it. *)
Definition printed_key (k : option string) : string :=
  match k with Some s => s | None => "None" end.

(** [k in keys] for a key that may be [None]; the keys are texts. *)
Definition key_in (k : option string) (keys : list string) : bool :=
  match k with Some s => in_list s keys | None => false end.

Definition key_in_set (k : option string) (keys : gset string) : bool :=
  match k with Some s => bool_decide (s ∈ keys) | None => false end.

(** [no_key_case] is what [get_test_case_by_key(None)] returns: the client
    is written for a text, and the request may carry none. *)
Definition get_test_prompt (request : TestPromptRequest)
    (jira_client : JiraClient) (no_key_case : option TestCase)
    : M PromptResponse :=
  try_except
    (let requested := req_test_case_key request in
     let found :=
       match requested with
       | Some k => get_test_case_by_key jira_client k
       | None => no_key_case
       end in
     match found with
     | None =>
         ret (Answer (JSONResponse 404
                (Message ("Test case " +:+ printed_key requested +:+ " not found"))))
     | Some test_case =>
         completed_keys <- get_completed_test_keys ;;
         if key_in requested completed_keys
         then ret (Answer (JSONResponse 400
                     (Message ("Test case " +:+ printed_key requested
                               +:+ " is already completed locally"))))
         else
           done_tests <- lift (get_test_cases_by_status jira_client "Done") ;;
           if key_in_set requested (key_set done_tests)
           then ret (Answer (JSONResponse 400
                       (Message ("Test case " +:+ printed_key requested
                                 +:+ " is already marked as Done in Jira"))))
           else
             let prompt := generate_prompt test_case in
             _ <- log_test_execution (key test_case) "Starting test execution" ;;
             ret (PromptContent prompt)
     end)
    (fun e => ret (Answer (HTTPException 500 e))).

(** * Notions used by the properties *)

(** Reading the link raises. *)
Definition link_fails (link : IssueLink) : bool :=
  match link_blocker link with
  | Raise _ => true
  | Ok _ => false
  end.

(** An error occurs while the issue of [test_key] is fetched or its links
    are read: the fetch raises, or one of its links cannot be read. *)
Definition dependency_lookup_fails (j : JIRA) (test_key : string) : bool :=
  match issue j test_key with
  | Raise _ => true
  | Ok i => existsb link_fails (nonempty_list (fields_issuelinks i))
  end.

(** The record has another key than [k]. *)
Definition other_key (k : string) (r : TestResult) : bool :=
  negb (String.eqb (test_case_key r) k).


(** The coming write of the results file succeeds. *)
Definition next_write_succeeds (w : World) : bool :=
  match writes w with
  | [] | Written :: _ => true
  | _ => false
  end.

(** The cells of a row by the words of the specification: the row is split
    on the pipe, the cells are trimmed, the empty ones are discarded. *)
Definition row_cells_spec (line : string) : list string :=
  List.filter PyStr.truthy (map PyStr.strip (PyStr.split pipe line)).

(** What a line after the header contributes by the words of the
    specification: one step from its first three cells when it begins with
    a pipe and has at least three cells, nothing otherwise. *)
Definition row_steps_spec (line : string) : list TestStep :=
  if PyStr.startswith "|" line
  then match row_cells_spec line with
       | c0 :: c1 :: c2 :: _ => [mkTestStep c0 c1 c2]
       | _ => []
       end
  else [].

(** The three cells of a step have no whitespace at either end. *)
Definition step_trimmed (s : TestStep) : bool :=
  PyStr.trimmed (test s) && PyStr.trimmed (test_step s)
  && PyStr.trimmed (expected_output s).


(** None of the three cells of a step is empty. *)
Definition step_filled (s : TestStep) : bool :=
  PyStr.truthy (test s) && PyStr.truthy (test_step s)
  && PyStr.truthy (expected_output s).


(** Some link of the issue cannot be read. *)
Definition issue_unreadable (i : Issue) : bool :=
  existsb link_fails (nonempty_list (fields_issuelinks i)).

(** The write after the coming one succeeds. *)
Definition second_write_succeeds (w : World) : bool :=
  match writes w with
  | [] => true
  | _ :: ws =>
      match ws with
      | [] | Written :: _ => true
      | _ => false
      end
  end.


(** The line [log_test_execution] writes at the time of [w]. *)
Definition log_line (w : World) (message : string) : string :=
  "[" +:+ now_stamp w +:+ "] " +:+ message +:+ String newline "".

(** The texts of the steps, numbered from [i]. *)
Fixpoint steps_text (i : nat) (steps : list TestStep) : string :=
  match steps with
  | [] => EmptyString
  | step :: steps' => step_text i step +:+ steps_text (S i) steps'
  end.

(** What the prompt shows of a step: its action and its expected result. *)
Definition shown (step : TestStep) : string * string :=
  (test_step step, expected_output step).

(** * Sample inputs *)

Definition scenario_description : string :=
  "||Test|Step|Expected||" +:+ String newline "|Login|Enter user|Dashboard shown|".

(** A two-record collection: one passed, one blocked. *)
Definition sample_passed : TestResult := mkTestResult "T-1" [] "Pass" "t0".
Definition sample_blocked : TestResult := mkTestResult "T-2" [] "Blocked" "t1".

Definition sample_world (f : ResultsFile) : World :=
  mkWorld f [] true [] "2024-01-01 00:00:00.000000" "2024-01-01 00:00:00".

(** The buckets of the scenario: To Do = {A, B}, In Progress = {C},
    Done = {D}; every other fetch fails. *)
Definition bucket_issue (k st : string) : Issue :=
  mkIssue k ("id-" +:+ k) ("Summary of " +:+ k) st None None.

Definition scenario_jira : JIRA :=
  mkJIRA
    (fun jql _ =>
       if String.eqb jql (jql_query "PROJ" "To Do")
       then Ok [bucket_issue "A" "To Do"; bucket_issue "B" "To Do"]
       else if String.eqb jql (jql_query "PROJ" "In Progress")
       then Ok [bucket_issue "C" "In Progress"]
       else if String.eqb jql (jql_query "PROJ" "Done")
       then Ok [bucket_issue "D" "Done"]
       else Ok [])
    (fun k =>
       if in_list k ["A"; "B"] then Ok (bucket_issue k "To Do")
       else if String.eqb k "C" then Ok (bucket_issue k "In Progress")
       else if String.eqb k "D" then Ok (bucket_issue k "Done")
       else Raise "Issue Does Not Exist").

Definition scenario_client : JiraClient :=
  mkJiraClient "https://tracker.example" "PROJ" scenario_jira.

Definition scenario_case (k st : string) : TestCase :=
  mkTestCase k ("id-" +:+ k) ("Summary of " +:+ k) st [].

Definition scenario_world : World :=
  sample_world (FileJson [mkTestResult "B" [] "Pass" "t0"]).

(** A tracker in which X is blocked by Y, Z has a link to Y followed by a
    link whose type has no name, and any other key is unknown. *)
Definition blocked_by (k : string) : IssueLink :=
  mkLink (Some k) None (mkLinkType (Some "Blocks") (Some "is blocked by")).

Definition unnamed_link (k : string) : IssueLink :=
  mkLink (Some k) None (mkLinkType None (Some "is blocked by")).

Definition issue_X : Issue :=
  mkIssue "X" "1" "Checkout" "To Do" None (Some [blocked_by "Y"]).
Definition issue_Y : Issue :=
  mkIssue "Y" "2" "Login" "To Do" None None.
Definition issue_Z : Issue :=
  mkIssue "Z" "3" "Logout" "To Do" None (Some [blocked_by "Y"; unnamed_link "Y"]).

Definition dependency_jira : JIRA :=
  mkJIRA
    (fun jql _ =>
       if String.eqb jql (jql_query "PROJ" "To Do")
       then Ok [issue_X; issue_Y] else Ok [])
    (fun k =>
       if String.eqb k "X" then Ok issue_X
       else if String.eqb k "Y" then Ok issue_Y
       else if String.eqb k "Z" then Ok issue_Z
       else Raise "Issue Does Not Exist").

Definition dependency_client : JiraClient :=
  mkJiraClient "https://tracker.example" "PROJ" dependency_jira.

Definition case_X : TestCase := mkTestCase "X" "1" "Checkout" "To Do" [].
Definition case_Y : TestCase := mkTestCase "Y" "2" "Login" "To Do" [].
Definition case_Z : TestCase := mkTestCase "Z" "3" "Logout" "To Do" [].

(** A resolver whose cached completed set is [completed]. *)
Definition resolver_with (completed : list string) : DependencyResolver :=
  mkResolver dependency_client (list_to_set completed).

(** A first and a second result for the key T-1. *)
Definition first_result : TestResult := mkTestResult "T-1" [] "Fail" "t0".
Definition second_submission : TestResultSubmission := mkSubmission "T-1" [] "Pass".
Definition second_result : TestResult :=
  submitted_record second_submission "2024-01-01 00:00:00.000000".

(** The results file cannot be opened for writing. *)
Definition read_only_world : World :=
  mkWorld (FileJson [first_result; sample_blocked]) [OpenFails] true []
    "2024-01-01 00:00:00.000000" "2024-01-01 00:00:00".

(** An HTML table whose first data cell is padded with blanks, and whose
    last row has a single cell. *)
Definition padded_html : string :=
  "<table><tr><th>Test</th><th>Step</th><th>Expected</th></tr>"
  +:+ "<tr><td> Login </td><td>Enter user</td><td>Dashboard shown</td></tr>"
  +:+ "<tr><td>orphan</td></tr></table>".

(** The scenario of a dependency: whether X can be executed before and
    after a passing result for Y is stored and the cache is refreshed. *)
Definition dependency_scenario : M (bool * bool) :=
  resolver <- new_resolver dependency_client ;;
  let before := _can_execute_test resolver case_X in
  _ <- update_test_result (mkTestResult "Y" [] "Pass" "t1") ;;
  stale <- ret (_can_execute_test resolver case_X) ;;
  resolver' <- refresh_completed_tests resolver ;;
  ret (before || stale, _can_execute_test resolver' case_X).

(** An HTML table whose first row already holds data cells. *)
Definition headerless_html : string :=
  "<tbody><tr><td>a</td><td>b</td><td>c</td></tr>"
  +:+ "<tr><td>d</td><td>e</td><td>f</td></tr></tbody>".

(** An HTML table after a sentence that holds a double pipe. *)
Definition prose_then_html : string :=
  "either a || b" +:+ String newline
  "<table><tr><th>T</th></tr><tr><td>d</td><td>e</td><td>f</td></tr></table>".

(** A tracker in which W is blocked by V and by a key that is unknown; V and
    W both have a pipe table. *)
Definition issue_V : Issue :=
  mkIssue "V" "5" "Sign in" "Done" (Some scenario_description) None.
Definition issue_W : Issue :=
  mkIssue "W" "6" "Pay" "To Do"
    (Some ("||T|S|E||" +:+ String newline "|Pay|Press pay|Receipt shown|"))
    (Some [blocked_by "V"; blocked_by "GONE"]).

Definition steps_jira : JIRA :=
  mkJIRA
    (fun jql _ =>
       if String.eqb jql (jql_query "PROJ" "To Do") then Ok [issue_W; issue_Z]
       else if String.eqb jql (jql_query "PROJ" "Done") then Ok [issue_V]
       else Ok [])
    (fun k =>
       if String.eqb k "V" then Ok issue_V
       else if String.eqb k "W" then Ok issue_W
       else Raise "Issue Does Not Exist").

Definition steps_client : JiraClient :=
  mkJiraClient "https://tracker.example" "PROJ" steps_jira.

(** A link of a type that does not block. *)
Definition relates_to (k : string) : IssueLink :=
  mkLink (Some k) None (mkLinkType (Some "Relates") None).

(** No results file yet, and a first write that fails. *)
Definition fresh_world : World :=
  mkWorld FileMissing [OpenFails; Written] true []
    "2024-01-01 00:00:00.000000" "2024-01-01 00:00:00".

(** A tracker in which S is blocked by itself, and P and Q block each
    other. *)
Definition cycle_jira : JIRA :=
  mkJIRA
    (fun _ _ => Ok [])
    (fun k =>
       if String.eqb k "S"
       then Ok (mkIssue "S" "7" "Self" "To Do" None (Some [blocked_by "S"]))
       else if String.eqb k "P"
       then Ok (mkIssue "P" "8" "First" "To Do" None (Some [blocked_by "Q"]))
       else if String.eqb k "Q"
       then Ok (mkIssue "Q" "9" "Second" "To Do" None (Some [blocked_by "P"]))
       else Raise "Issue Does Not Exist").

Definition cycle_resolver (completed : list string) : DependencyResolver :=
  mkResolver (mkJiraClient "https://tracker.example" "PROJ" cycle_jira)
    (list_to_set completed).

Definition case_S : TestCase := mkTestCase "S" "7" "Self" "To Do" [].

(** The world of the dependency scenario, with nothing stored yet. *)
Definition empty_world : World := sample_world (FileJson []).

(** Two test cases that differ in id, status and the labels of their steps. *)
Definition prompt_case_1 : TestCase :=
  mkTestCase "K-1" "9" "Login works" "To Do"
    [mkTestStep "Login" "Open page" "Page shown"; mkTestStep "Login" "Click" "Done"].
Definition prompt_case_2 : TestCase :=
  mkTestCase "K-1" "10" "Login works" "In Progress"
    [mkTestStep "a" "Open page" "Page shown"; mkTestStep "b" "Click" "Done"].


(** A tracker that is down: every query raises with its message. *)
Definition down_jira : JIRA :=
  mkJIRA (fun _ _ => Raise "HTTP 503: Service Unavailable")
         (fun _ => Raise "HTTP 503: Service Unavailable").

Definition down_client : JiraClient :=
  mkJiraClient "https://tracker.example" "PROJ" down_jira.

(* end of sample inputs *)

(** * Properties *)

Example extract_scenario :
  _extract_test_steps_from_description scenario_description
  = [mkTestStep "Login" "Enter user" "Dashboard shown"].
Proof. reflexivity. Qed.

Example extract_html_rows :
  _extract_test_steps_from_description
    "<table><tr><th>T</th></tr><tr><td> Login </td><td>b</td><td>c</td></tr><tr><td>x</td></tr></table>"
  = [mkTestStep " Login " "b" "c"].
Proof. reflexivity. Qed.

(** ** Loops as list functions *)

Lemma in_list_spec (x : string) (l : list string) :
  in_list x l = true <-> x ∈ l.
Proof.
  unfold in_list. rewrite existsb_exists, list_elem_of_In. split.
  - intros (y & Hy & Heq). apply String.eqb_eq in Heq. by subst.
  - intros H. exists x. split; [done | apply String.eqb_refl].
Qed.

Lemma executable_loop_filter self test_cases acc :
  executable_loop self test_cases acc
  = acc ++ List.filter (_can_execute_test self) test_cases.
Proof.
  revert acc. induction test_cases as [|t ts IH]; intros acc; simpl.
  - by rewrite app_nil_r.
  - destruct (_can_execute_test self t); rewrite IH; [|done].
    by rewrite <- app_assoc.
Qed.

Lemma incomplete_loop_keys tests keys acc :
  map it_key (incomplete_loop tests keys acc)
  = map it_key acc
    ++ List.filter (fun k => bool_decide (k ∈ keys)) (map key tests).
Proof.
  revert acc. induction tests as [|t ts IH]; intros acc; simpl.
  - by rewrite app_nil_r.
  - destruct (bool_decide (key t ∈ keys)); rewrite IH; [|done].
    rewrite map_app. simpl. by rewrite <- app_assoc.
Qed.

Lemma completed_of_elem (results : list TestResult) (k : string) :
  k ∈ completed_of results
  <-> exists r, r ∈ results /\ test_case_key r = k
        /\ (overall_result r = "Pass" \/ overall_result r = "Fail").
Proof.
  unfold completed_of. rewrite list_elem_of_fmap. split.
  - intros (r & -> & Hr). apply list_elem_of_In, filter_In in Hr.
    destruct Hr as [Hin Hres]. exists r. split; [by apply list_elem_of_In|].
    split; [done|]. apply in_list_spec in Hres.
    apply elem_of_cons in Hres as [Hres|Hres]; [by left|].
    apply list_elem_of_singleton in Hres. by right.
  - intros (r & Hin & <- & Hres). exists r. split; [done|].
    apply list_elem_of_In, filter_In. split; [by apply list_elem_of_In|].
    apply in_list_spec. rewrite elem_of_cons, list_elem_of_singleton.
    exact Hres.
Qed.

Lemma get_completed_test_keys_json w results :
  results_file w = FileJson results ->
  get_completed_test_keys w = (Ok (completed_of results), w).
Proof.
  intros H. unfold get_completed_test_keys, bind, load_test_results.
  by rewrite H.
Qed.

(** ** Completion reconciler *)

(** C3: with a collection of records in the results file,
    [get_completed_test_keys] returns, without touching the file, keys such
    that a key is among them exactly when some record with that
    [test_case_key] has [overall_result] "Pass" or "Fail"; a record with any
    other result contributes nothing. *)
Theorem C3_completed_keys_exact (w : World) (results : list TestResult) :
  results_file w = FileJson results ->
  exists keys,
    get_completed_test_keys w = (Ok keys, w)
    /\ keys = map test_case_key
                (List.filter (fun r => bool_decide (overall_result r = "Pass"
                                                     \/ overall_result r = "Fail"))
                   results)
    /\ forall k, k ∈ keys
         <-> exists r, r ∈ results /\ test_case_key r = k
               /\ (overall_result r = "Pass" \/ overall_result r = "Fail").
Proof.
  intros Hfile. exists (completed_of results).
  split; [by apply get_completed_test_keys_json|].
  split; [|apply completed_of_elem].
  unfold completed_of. f_equal. apply filter_ext. intros r.
  destruct (bool_decide _) eqn:Hdec.
  - apply bool_decide_eq_true in Hdec. apply in_list_spec.
    rewrite elem_of_cons, list_elem_of_singleton. exact Hdec.
  - apply bool_decide_eq_false in Hdec.
    destruct (in_list _ _) eqn:Hin; [|done].
    apply in_list_spec in Hin.
    rewrite elem_of_cons, list_elem_of_singleton in Hin. done.
Qed.

Lemma C3_completed_keys_exact_witness :
  exists keys,
    get_completed_test_keys (sample_world (FileJson [sample_passed; sample_blocked]))
    = (Ok keys, sample_world (FileJson [sample_passed; sample_blocked]))
    /\ keys = map test_case_key
                (List.filter (fun r => bool_decide (overall_result r = "Pass"
                                                     \/ overall_result r = "Fail"))
                   [sample_passed; sample_blocked])
    /\ forall k, k ∈ keys
         <-> exists r, r ∈ [sample_passed; sample_blocked] /\ test_case_key r = k
               /\ (overall_result r = "Pass" \/ overall_result r = "Fail").
Proof.
  apply (C3_completed_keys_exact
           (sample_world (FileJson [sample_passed; sample_blocked]))).
  reflexivity.
Defined.

Example completed_blocked_excluded :
  completed_of [sample_passed; sample_blocked] = ["T-1"].
Proof. reflexivity. Qed.

Lemma run_incomplete_tests jc w w' todo inprog done_ completed :
  get_test_cases_by_status jc "To Do" = Ok todo ->
  get_test_cases_by_status jc "In Progress" = Ok inprog ->
  get_test_cases_by_status jc "Done" = Ok done_ ->
  get_completed_test_keys w = (Ok completed, w') ->
  get_incomplete_tests jc w
  = (Ok (JSONResponse 200
           (IncompleteTests
              (incomplete_loop (todo ++ inprog)
                 (incomplete_keys todo inprog done_ completed) [])
              (length (incomplete_loop (todo ++ inprog)
                 (incomplete_keys todo inprog done_ completed) [])))),
     w').
Proof.
  intros H1 H2 H3 Hkeys.
  unfold get_incomplete_tests, try_except, bind, lift.
  rewrite H1, H2, H3, Hkeys. reflexivity.
Qed.

(** C1: when the tracker answers the three status queries and
    [get_completed_test_keys] returns the locally completed keys, the keys
    listed by [get_incomplete_tests] are, as a set, (the keys of the To Do
    test cases ∪ the keys of the In Progress test cases) minus the keys of
    the Done test cases minus the locally completed keys; so a key in
    neither the To Do nor the In Progress bucket is never listed, whatever
    the local records are. *)
Theorem C1_outstanding_tests (jc : JiraClient) (w w' : World)
    (todo inprog done_ : list TestCase) (completed : list string) :
  get_test_cases_by_status jc "To Do" = Ok todo ->
  get_test_cases_by_status jc "In Progress" = Ok inprog ->
  get_test_cases_by_status jc "Done" = Ok done_ ->
  get_completed_test_keys w = (Ok completed, w') ->
  exists outstanding : list IncompleteTest,
    get_incomplete_tests jc w
    = (Ok (JSONResponse 200 (IncompleteTests outstanding (length outstanding))), w')
    /\ (list_to_set (map it_key outstanding) : gset string)
       = (list_to_set (map key todo) ∪ list_to_set (map key inprog))
           ∖ list_to_set (map key done_) ∖ list_to_set completed
    /\ (forall k, k ∈ map it_key outstanding
           <-> (k ∈ map key todo \/ k ∈ map key inprog)
               /\ (k ∉ map key done_) /\ (k ∉ completed))
    /\ forall k, k ∉ map key todo -> k ∉ map key inprog ->
                 k ∉ map it_key outstanding.
Proof.
  intros H1 H2 H3 Hkeys.
  eexists. split; [by apply run_incomplete_tests|].
  assert (Hmem : forall k,
    k ∈ map it_key (incomplete_loop (todo ++ inprog)
                      (incomplete_keys todo inprog done_ completed) [])
    <-> (k ∈ map key todo \/ k ∈ map key inprog)
        /\ (k ∉ map key done_) /\ (k ∉ completed)).
  { intros k. rewrite incomplete_loop_keys. simpl.
    rewrite list_elem_of_In, filter_In, <- list_elem_of_In, bool_decide_eq_true.
    unfold incomplete_keys, key_set. rewrite map_app.
    rewrite !elem_of_difference, elem_of_union, !elem_of_list_to_set, elem_of_app.
    tauto. }
  split; [|split].
  - apply set_eq. intros k.
    rewrite !elem_of_difference, elem_of_union, !elem_of_list_to_set.
    rewrite Hmem. tauto.
  - exact Hmem.
  - intros k Ht Hp Hin. apply Hmem in Hin. tauto.
Qed.

Lemma C1_outstanding_tests_witness :
  exists outstanding : list IncompleteTest,
    get_incomplete_tests scenario_client scenario_world
    = (Ok (JSONResponse 200 (IncompleteTests outstanding (length outstanding))),
       scenario_world)
    /\ (list_to_set (map it_key outstanding) : gset string)
       = (list_to_set (map key [scenario_case "A" "To Do"; scenario_case "B" "To Do"])
          ∪ list_to_set (map key [scenario_case "C" "In Progress"]))
           ∖ list_to_set (map key [scenario_case "D" "Done"])
           ∖ list_to_set ["B"]
    /\ (forall k, k ∈ map it_key outstanding
           <-> (k ∈ map key [scenario_case "A" "To Do"; scenario_case "B" "To Do"]
                \/ k ∈ map key [scenario_case "C" "In Progress"])
               /\ (k ∉ map key [scenario_case "D" "Done"]) /\ (k ∉ ["B"]))
    /\ forall k, k ∉ map key [scenario_case "A" "To Do"; scenario_case "B" "To Do"] ->
                 k ∉ map key [scenario_case "C" "In Progress"] ->
                 k ∉ map it_key outstanding.
Proof.
  apply (C1_outstanding_tests scenario_client scenario_world scenario_world
           [scenario_case "A" "To Do"; scenario_case "B" "To Do"]
           [scenario_case "C" "In Progress"]
           [scenario_case "D" "Done"]
           ["B"]); reflexivity.
Defined.

Example outstanding_scenario :
  fst (get_incomplete_tests scenario_client scenario_world)
  = Ok (JSONResponse 200
          (IncompleteTests
             [mkIncompleteTest "A" "Summary of A" "To Do";
              mkIncompleteTest "C" "Summary of C" "In Progress"] 2)).
Proof. vm_compute. reflexivity. Qed.

(** ** Dependency resolver *)

Lemma forallb_completed (completed : gset string) (deps : list string) :
  forallb (fun d => bool_decide (d ∈ completed)) deps = true
  <-> forall d, d ∈ deps -> d ∈ completed.
Proof.
  rewrite forallb_forall. split.
  - intros H d Hd. apply list_elem_of_In, H in Hd.
    by apply bool_decide_eq_true in Hd.
  - intros H d Hd. apply bool_decide_eq_true, H. by apply list_elem_of_In.
Qed.

(** C2: [_can_execute_test] is false when the key of the test is in the
    cached completed set, whatever its dependencies; otherwise it is true
    exactly when every key of [_find_dependencies] is in the cached
    completed set, and so it is true when there is no dependency. *)
Theorem C2_can_execute (self : DependencyResolver) (t : TestCase) :
  (key t ∈ completed_tests self -> _can_execute_test self t = false)
  /\ (key t ∉ completed_tests self ->
        (_can_execute_test self t = true
         <-> forall d, d ∈ _find_dependencies self (key t) ->
                       d ∈ completed_tests self))
  /\ (key t ∉ completed_tests self -> _find_dependencies self (key t) = [] ->
        _can_execute_test self t = true).
Proof.
  unfold _can_execute_test. split; [|split].
  - intros Hin. by rewrite bool_decide_eq_true_2.
  - intros Hnot. rewrite bool_decide_eq_false_2 by done.
    apply forallb_completed.
  - intros Hnot Hdeps. rewrite bool_decide_eq_false_2 by done.
    by rewrite Hdeps.
Qed.

Lemma C2_can_execute_witness :
  _can_execute_test (resolver_with ["X"; "Y"]) case_X = false
  /\ _can_execute_test (resolver_with []) case_Y = true.
Proof.
  split.
  - apply (C2_can_execute (resolver_with ["X"; "Y"]) case_X).
    refine (bool_decide_unpack _ _). vm_compute. exact I.
  - apply (C2_can_execute (resolver_with []) case_Y).
    + refine (bool_decide_unpack _ _). vm_compute. exact I.
    + reflexivity.
Defined.

Example depends_on_incomplete :
  _find_dependencies (resolver_with []) "X" = ["Y"]
  /\ _can_execute_test (resolver_with []) case_X = false
  /\ _can_execute_test (resolver_with ["Y"]) case_X = true
  /\ _can_execute_test (resolver_with ["X"; "Y"]) case_X = false.
Proof. vm_compute. done. Qed.

(** X waits for Y until the result of Y is stored and the cached set is
    refreshed; the cache alone does not follow the file. *)
Example dependency_scenario_run :
  fst (dependency_scenario (sample_world (FileJson []))) = Ok (false, true).
Proof. vm_compute. reflexivity. Qed.

(** C9: when the tracker returns the candidates of a status,
    [find_executable_tests] returns exactly the candidates that
    [_can_execute_test] accepts, in their order; and [get_next_test] returns
    the first executable candidate of status To Do, or nothing when there is
    none. *)
Theorem C9_find_executable_and_next (self : DependencyResolver)
    (status : string) (candidates : list TestCase) :
  get_test_cases_by_status (jira_client self) status = Ok candidates ->
  find_executable_tests self status
  = Ok (List.filter (_can_execute_test self) candidates)
  /\ (status = "To Do" ->
      get_next_test self
      = Ok (head (List.filter (_can_execute_test self) candidates))).
Proof.
  intros Hget.
  assert (Hfind : find_executable_tests self status
                  = Ok (List.filter (_can_execute_test self) candidates)).
  { unfold find_executable_tests. rewrite Hget.
    by rewrite executable_loop_filter. }
  split; [exact Hfind|].
  intros ->. unfold get_next_test. rewrite Hfind.
  by destruct (List.filter _ candidates).
Qed.

Lemma C9_find_executable_and_next_witness :
  find_executable_tests (resolver_with []) "To Do"
  = Ok (List.filter (_can_execute_test (resolver_with [])) [case_X; case_Y])
  /\ ("To Do" = "To Do" ->
      get_next_test (resolver_with [])
      = Ok (head (List.filter (_can_execute_test (resolver_with []))
                    [case_X; case_Y]))).
Proof.
  apply (C9_find_executable_and_next (resolver_with []) "To Do" [case_X; case_Y]).
  reflexivity.
Defined.

Example next_test_skips_blocked :
  get_next_test (resolver_with []) = Ok (Some case_Y)
  /\ get_next_test (resolver_with ["Y"]) = Ok (Some case_X)
  /\ get_next_test (resolver_with ["X"; "Y"]) = Ok None.
Proof. vm_compute. done. Qed.

(** *** Failures of the dependency lookup *)

Lemma blocking_loop_fails links acc :
  existsb link_fails links = true ->
  exists e, blocking_loop links acc = Raise e.
Proof.
  revert acc. induction links as [|link links IH]; intros acc; simpl.
  - discriminate.
  - unfold link_fails at 1.
    destruct (link_blocker link) as [[k|]|e]; simpl; eauto.
Qed.

Lemma blocking_loop_succeeds links acc :
  existsb link_fails links = false ->
  exists deps, blocking_loop links acc = Ok deps.
Proof.
  revert acc. induction links as [|link links IH]; intros acc; simpl.
  - eauto.
  - unfold link_fails at 1.
    destruct (link_blocker link) as [[k|]|e]; simpl; eauto. discriminate.
Qed.

(** Both loops read the links alike: where the one of the client ends
    without an exception, the one of the resolver returns the same keys. *)
Lemma dependencies_loop_agrees links acc deps :
  blocking_loop links acc = Ok deps ->
  dependencies_loop links acc = deps.
Proof.
  revert acc. induction links as [|link links IH]; intros acc; simpl.
  - by intros [= ->].
  - destruct (link_blocker link) as [[k|]|e]; eauto. discriminate.
Qed.

(** The keys [_find_dependencies] returns, by the fetch and the links. *)
Lemma find_dependencies_cases self test_key :
  _find_dependencies self test_key
  = match issue (jira (jira_client self)) test_key with
    | Raise _ => []
    | Ok i =>
        match _find_blocking_issues i with
        | Raise _ => []
        | Ok deps => deps
        end
    end.
Proof.
  unfold _find_dependencies, get_test_case_by_key, _process_test_case.
  destruct (issue _ test_key) as [i|e]; [|done].
  destruct (_find_blocking_issues i) as [deps|e] eqn:Hblock; [|done].
  by apply dependencies_loop_agrees.
Qed.

(** C6: if an error occurs while the issue of a test key is fetched or its
    links are read, [_find_dependencies] returns no dependency, and
    [_can_execute_test] on a test with that key is true unless the key
    itself is in the cached completed set. *)
Theorem C6_dependency_lookup_fails_open (self : DependencyResolver)
    (test_key : string) :
  dependency_lookup_fails (jira (jira_client self)) test_key = true ->
  _find_dependencies self test_key = []
  /\ forall t : TestCase, key t = test_key ->
       _can_execute_test self t
       = negb (bool_decide (test_key ∈ completed_tests self)).
Proof.
  intros Hfail.
  assert (Hdeps : _find_dependencies self test_key = []).
  { rewrite find_dependencies_cases. unfold dependency_lookup_fails in Hfail.
    destruct (issue _ test_key) as [i|e]; [|done].
    unfold _find_blocking_issues.
    destruct (blocking_loop_fails _ [] Hfail) as [e ->]. done. }
  split; [exact Hdeps|].
  intros t <-. unfold _can_execute_test. rewrite Hdeps.
  by destruct (bool_decide _).
Qed.

Lemma C6_dependency_lookup_fails_open_witness :
  _find_dependencies (resolver_with []) "Z" = []
  /\ forall t : TestCase, key t = "Z" ->
       _can_execute_test (resolver_with []) t
       = negb (bool_decide ("Z" ∈ completed_tests (resolver_with []))).
Proof.
  apply (C6_dependency_lookup_fails_open (resolver_with []) "Z").
  reflexivity.
Defined.

Example lookup_failure_examples :
  dependency_lookup_fails dependency_jira "Z" = true
  /\ dependency_lookup_fails dependency_jira "unknown" = true
  /\ dependency_lookup_fails dependency_jira "X" = false
  /\ _find_dependencies (resolver_with []) "unknown" = []
  /\ _can_execute_test (resolver_with []) case_Z = true.
Proof. vm_compute. done. Qed.

(** ** The results file *)

Lemma existing_index_shift k i results :
  existing_index k (S i) results = S <$> existing_index k i results.
Proof.
  revert i. induction results as [|r rs IH]; intros i; simpl; [done|].
  destruct (String.eqb (test_case_key r) k); [done | apply IH].
Qed.

Lemma existing_index_Some k results n :
  existing_index k 0 results = Some n ->
  exists before old after,
    results = before ++ old :: after
    /\ test_case_key old = k
    /\ Forall (fun r => test_case_key r <> k) before
    /\ n = length before.
Proof.
  revert n. induction results as [|r rs IH]; intros n; simpl; [done|].
  destruct (String.eqb (test_case_key r) k) eqn:Heq.
  - apply String.eqb_eq in Heq. intros [= <-].
    exists [], r, rs. by repeat split.
  - apply String.eqb_neq in Heq. rewrite existing_index_shift.
    destruct (existing_index k 0 rs) as [m|]; [|done].
    intros [= <-].
    destruct (IH m eq_refl) as (before & old & after & -> & Hold & Hbefore & ->).
    exists (r :: before), old, after. repeat split; try done.
    by constructor.
Qed.

Lemma existing_index_None k results :
  existing_index k 0 results = None ->
  Forall (fun r => test_case_key r <> k) results.
Proof.
  induction results as [|r rs IH]; simpl; [by constructor|].
  destruct (String.eqb (test_case_key r) k) eqn:Heq; [done|].
  apply String.eqb_neq in Heq. rewrite existing_index_shift.
  destruct (existing_index k 0 rs); [done|].
  intros _. constructor; [done | by apply IH].
Qed.

Lemma insert_at_length {A} (before after : list A) (old new : A) :
  <[length before := new]> (before ++ old :: after) = before ++ new :: after.
Proof. induction before as [|x before IH]; simpl; [done | by rewrite IH]. Qed.

(** What [update_test_result] does to the collection: it replaces the first
    record with the key, or appends when no record has it. *)
Lemma updated_results_cases (test_result : TestResult) (results : list TestResult) :
  (exists before old after,
      results = before ++ old :: after
      /\ test_case_key old = test_case_key test_result
      /\ Forall (fun r => test_case_key r <> test_case_key test_result) before
      /\ updated_results test_result results = before ++ test_result :: after)
  \/ (Forall (fun r => test_case_key r <> test_case_key test_result) results
      /\ updated_results test_result results = results ++ [test_result]).
Proof.
  unfold updated_results.
  destruct (existing_index _ 0 results) as [n|] eqn:Hidx.
  - left. apply existing_index_Some in Hidx
      as (before & old & after & -> & Hold & Hbefore & ->).
    exists before, old, after. repeat split; try done.
    apply insert_at_length.
  - right. split; [by apply existing_index_None | done].
Qed.

Lemma updated_results_frame (test_result : TestResult) (results : list TestResult) :
  List.filter (other_key (test_case_key test_result))
    (updated_results test_result results)
  = List.filter (other_key (test_case_key test_result)) results.
Proof.
  assert (Hself : other_key (test_case_key test_result) test_result = false).
  { unfold other_key. by rewrite String.eqb_refl. }
  destruct (updated_results_cases test_result results)
    as [(before & old & after & -> & Hold & _ & ->)|[_ ->]].
  - assert (Hgone : other_key (test_case_key test_result) old = false).
    { unfold other_key. by rewrite Hold, String.eqb_refl. }
    rewrite !List.filter_app. simpl. by rewrite Hself, Hgone.
  - rewrite List.filter_app. simpl. rewrite Hself. by rewrite app_nil_r.
Qed.




Lemma update_test_result_json w results test_result :
  results_file w = FileJson results ->
  update_test_result test_result w
  = save_test_results (updated_results test_result results) w.
Proof.
  intros Hfile. unfold update_test_result, bind, load_test_results.
  by rewrite Hfile.
Qed.

Lemma save_test_results_true results w w' :
  save_test_results results w = (Ok true, w') ->
  results_file w' = FileJson results.
Proof.
  unfold save_test_results.
  destruct (writes w) as [|[] ws]; intros [= <-]; done.
Qed.

Lemma save_test_results_succeeds results w :
  next_write_succeeds w = true ->
  exists w', save_test_results results w = (Ok true, w')
             /\ results_file w' = FileJson results.
Proof.
  unfold next_write_succeeds, save_test_results.
  destruct (writes w) as [|[] ws]; intros H; try done; eauto.
Qed.

(** [save_test_results] never raises: it answers true or false. *)
Lemma save_test_results_total results w :
  exists b w', save_test_results results w = (Ok b, w').
Proof.
  unfold save_test_results. destruct (writes w) as [|[] ws]; eauto.
Qed.

(** No submission adds a second record for a key. *)
Lemma updated_results_NoDup (test_result : TestResult) (results : list TestResult) :
  NoDup (map test_case_key results) ->
  NoDup (map test_case_key (updated_results test_result results)).
Proof.
  intros Hnodup.
  destruct (updated_results_cases test_result results)
    as [(before & old & after & -> & Hold & _ & ->)|[Hall ->]].
  - revert Hnodup. rewrite !map_app. simpl. by rewrite Hold.
  - rewrite map_app. simpl. apply NoDup_app. split; [done|]. split.
    + intros k Hk Hk'. apply list_elem_of_singleton in Hk'. subst k.
      apply list_elem_of_fmap in Hk as (r & Hkey & Hr).
      rewrite Forall_forall in Hall. by apply (Hall r Hr).
    + apply NoDup_singleton.
Qed.



Example resubmission_replaces :
  updated_results second_result [first_result; sample_blocked]
  = [second_result; sample_blocked]
  /\ completed_of (updated_results second_result [first_result; sample_blocked])
     = ["T-1"].
Proof. split; reflexivity. Qed.




(** ** Submission of results *)

Lemma send_test_results_cases submission jc w :
  match update_test_result (submitted_record submission (now w)) w with
  | (Ok false, w') =>
      send_test_results submission jc w
      = (Ok (JSONResponse 500 (Message "Failed to update test results")), w')
  | (Raise e, w') =>
      send_test_results submission jc w = (Ok (HTTPException 500 e), w')
  | (Ok true, _) => True
  end.
Proof.
  destruct (update_test_result _ w) as [[[]|e] w'] eqn:Hupd; [done| |];
    unfold send_test_results, try_except; cbv zeta;
    unfold bind at 1; by rewrite Hupd.
Qed.



(** The other direction: an answer with status 200 comes only after a save
    that returned true. *)
Lemma send_test_results_success_saved submission jc w w' c :
  send_test_results submission jc w = (Ok (JSONResponse 200 c), w') ->
  exists results w1 w2,
    load_test_results w = (Ok results, w1)
    /\ save_test_results
         (updated_results (submitted_record submission (now w)) results) w1
       = (Ok true, w2).
Proof.
  intros Hsend.
  pose proof (send_test_results_cases submission jc w) as Hcases.
  destruct (update_test_result _ w) as [[[]|e] w2] eqn:Hupd.
  - unfold update_test_result, bind in Hupd.
    destruct (load_test_results w) as [[results|e] w1]; [|done].
    by exists results, w1, w2.
  - rewrite Hcases in Hsend. done.
  - rewrite Hcases in Hsend. done.
Qed.

Example save_failure_keeps_file :
  send_test_results second_submission scenario_client read_only_world
  = (Ok (JSONResponse 500 (Message "Failed to update test results")),
     set_results_file (FileJson [first_result; sample_blocked]) [] read_only_world).
Proof. reflexivity. Qed.

Example submission_answer :
  fst (send_test_results (mkSubmission "A" [] "Pass") scenario_client scenario_world)
  = Ok (JSONResponse 200
          (ResultsSaved "Test results saved successfully" "completed" true 1)).
Proof. vm_compute. reflexivity. Qed.

(** ** Text search

    The fuel that [findall] gives to [findall_between] is enough: any
    larger fuel finds the same groups. *)

Lemma startswith_drop_length p s :
  PyStr.startswith p s = true ->
  String.length s = String.length p + String.length (PyStr.drop (String.length p) s).
Proof.
  revert s. induction p as [|a p IH]; intros [|b s]; simpl; try done.
  intros H. apply andb_true_iff in H as [_ H]. by rewrite <- IH.
Qed.

Lemma partition_length sub s before after :
  PyStr.partition sub s = Some (before, after) ->
  String.length s
  = String.length before + String.length sub + String.length after.
Proof.
  revert before. induction s as [|c s IH]; intros before; simpl.
  - destruct (PyStr.startswith sub EmptyString) eqn:Hstart; [|done].
    intros [= <- <-]. by apply startswith_drop_length in Hstart.
  - destruct (PyStr.startswith sub (String c s)) eqn:Hstart.
    + intros [= <- <-]. by apply startswith_drop_length in Hstart.
    + destruct (PyStr.partition sub s) as [[b a]|]; [|done].
      intros [= <- <-]. simpl. by rewrite (IH b eq_refl).
Qed.

Lemma findall_between_fuel opn cls fuel1 fuel2 s :
  0 < String.length opn ->
  String.length s <= fuel1 -> String.length s <= fuel2 ->
  PyStr.findall_between fuel1 opn cls s = PyStr.findall_between fuel2 opn cls s.
Proof.
  intros Hopn. revert fuel2 s.
  induction fuel1 as [|fuel1 IH]; intros fuel2 s H1 H2.
  - destruct fuel2 as [|fuel2]; [done|]. simpl.
    destruct (PyStr.partition opn s) as [[b a]|] eqn:Hp; [|done].
    apply partition_length in Hp. lia.
  - destruct fuel2 as [|fuel2]; simpl.
    + destruct (PyStr.partition opn s) as [[b a]|] eqn:Hp; [|done].
      apply partition_length in Hp. lia.
    + destruct (PyStr.partition opn s) as [[b a]|] eqn:Hp; [|done].
      destruct (PyStr.partition cls a) as [[group rest]|] eqn:Hc; [|done].
      apply partition_length in Hp, Hc. f_equal. apply IH; lia.
Qed.

Lemma findall_fuel_enough opn cls fuel s :
  0 < String.length opn -> String.length s <= fuel ->
  PyStr.findall_between fuel opn cls s = PyStr.findall opn cls s.
Proof. intros Hopn Hfuel. by apply findall_between_fuel. Qed.

(** ** Step extractor *)

Lemma lstrip_first s c :
  PyStr.first_char (PyStr.lstrip s) = Some c -> PyStr.isspace c = false.
Proof.
  induction s as [|a s IH]; simpl; [done|].
  destruct (PyStr.isspace a) eqn:Ha; [done|]. simpl. by intros [= <-].
Qed.

Lemma rstrip_first s c :
  PyStr.first_char (PyStr.rstrip s) = Some c -> PyStr.first_char s = Some c.
Proof.
  destruct s as [|a s]; simpl; [done|].
  destruct (PyStr.rstrip s); [destruct (PyStr.isspace a)|]; simpl; done.
Qed.

Lemma rstrip_last s c :
  PyStr.last_char (PyStr.rstrip s) = Some c -> PyStr.isspace c = false.
Proof.
  induction s as [|a s IH]; simpl; [done|].
  destruct (PyStr.rstrip s) as [|b t].
  - destruct (PyStr.isspace a) eqn:Ha; simpl; [done|]. by intros [= <-].
  - exact IH.
Qed.

(** [strip] leaves no whitespace at either end. *)
Lemma strip_trimmed s : PyStr.trimmed (PyStr.strip s) = true.
Proof.
  unfold PyStr.trimmed, PyStr.strip.
  destruct (PyStr.first_char _) as [a|] eqn:Hfirst; [|done].
  destruct (PyStr.last_char _) as [b|] eqn:Hlast; [|done].
  apply rstrip_first, lstrip_first in Hfirst. apply rstrip_last in Hlast.
  by rewrite Hfirst, Hlast.
Qed.

(** Filtering before or after the trimming gives the same cells. *)
Lemma clean_cells_spec line :
  clean_cells (PyStr.split pipe line) = row_cells_spec line.
Proof.
  unfold clean_cells, row_cells_spec.
  induction (PyStr.split pipe line) as [|c cs IH]; simpl; [done|].
  destruct (PyStr.truthy (PyStr.strip c)); simpl; by rewrite IH.
Qed.

Lemma clean_cells_trimmed cells :
  Forall (fun c => PyStr.trimmed c = true) (clean_cells cells).
Proof.
  unfold clean_cells. apply Forall_forall. intros c Hc.
  apply list_elem_of_fmap in Hc as (c' & -> & _). apply strip_trimmed.
Qed.

Lemma nth_trimmed cells i :
  Forall (fun c => PyStr.trimmed c = true) cells ->
  PyStr.trimmed (nth i cells EmptyString) = true.
Proof.
  intros Hall. revert i. induction Hall as [|c cs Hc _ IH]; intros [|i]; simpl; auto.
Qed.

Lemma step_of_cells_first_three c0 c1 c2 rest :
  step_of_cells (c0 :: c1 :: c2 :: rest) = mkTestStep c0 c1 c2.
Proof. reflexivity. Qed.

Lemma pipe_table_loop_cons line lines header_found acc :
  pipe_table_loop (line :: lines) header_found acc
  = if PyStr.startswith "||" line && negb header_found
    then pipe_table_loop lines true acc
    else if PyStr.startswith "|" line && header_found
    then
      if (3 <=? length (clean_cells (PyStr.split pipe line)))%nat
      then pipe_table_loop lines header_found
             (acc ++ [step_of_cells (clean_cells (PyStr.split pipe line))])
      else pipe_table_loop lines header_found acc
    else pipe_table_loop lines header_found acc.
Proof. reflexivity. Qed.

(** Before the header no line contributes. *)
Lemma pipe_table_loop_before before rest acc :
  Forall (fun l => PyStr.startswith "||" l = false) before ->
  pipe_table_loop (before ++ rest) false acc = pipe_table_loop rest false acc.
Proof.
  induction 1 as [|l before Hl _ IH]; [done|].
  rewrite <- app_comm_cons, pipe_table_loop_cons.
  by rewrite Hl, andb_false_r.
Qed.

(** After the header every line contributes what the specification says. *)
Lemma pipe_table_loop_after lines acc :
  pipe_table_loop lines true acc = acc ++ flat_map row_steps_spec lines.
Proof.
  revert acc. induction lines as [|l lines IH]; intros acc.
  - simpl. by rewrite app_nil_r.
  - rewrite pipe_table_loop_cons. cbn [flat_map negb].
    rewrite andb_false_r, andb_true_r. unfold row_steps_spec at 1.
    destruct (PyStr.startswith "|" l); [|apply IH].
    rewrite clean_cells_spec.
    destruct (row_cells_spec l) as [|c0 [|c1 [|c2 rest]]]; simpl; try apply IH.
    rewrite IH, step_of_cells_first_three. by rewrite <- app_assoc.
Qed.

Lemma pipe_table_loop_no_header lines acc :
  Forall (fun l => PyStr.startswith "||" l = false) lines ->
  pipe_table_loop lines false acc = acc.
Proof.
  intros H. rewrite <- (app_nil_r lines).
  by rewrite pipe_table_loop_before.
Qed.

Lemma row_steps_spec_one line :
  length (row_steps_spec line) = 1
  <-> PyStr.startswith "|" line = true /\ 3 <= length (row_cells_spec line).
Proof.
  unfold row_steps_spec.
  destruct (PyStr.startswith "|" line); [|simpl; split; [done | by intros [? _]]].
  destruct (row_cells_spec line) as [|c0 [|c1 [|c2 rest]]]; simpl;
    split; try done; try (intros [_ H]; lia).
  intros _. split; [done | lia].
Qed.

Lemma row_steps_spec_none line :
  row_steps_spec line = []
  <-> ~ (PyStr.startswith "|" line = true /\ 3 <= length (row_cells_spec line)).
Proof.
  rewrite <- row_steps_spec_one. unfold row_steps_spec.
  destruct (PyStr.startswith "|" line); [|done].
  by destruct (row_cells_spec line) as [|c0 [|c1 [|c2 rest]]].
Qed.

(** C4: for a description of the pipe-table encoding, the first line that
    begins with a double pipe is skipped as the header, and the steps are
    what the lines after it contribute, in their order: a line that begins
    with a pipe and whose trimmed non-empty cells are at least three gives
    exactly one step, of its first three cells; any other line, and the
    header, give none. *)
Theorem C4_pipe_table_rows (description : string)
    (before : list string) (header : string) (after : list string) :
  PyStr.contains "||" description = true ->
  PyStr.split newline description = before ++ header :: after ->
  Forall (fun l => PyStr.startswith "||" l = false) before ->
  PyStr.startswith "||" header = true ->
  _extract_test_steps_from_description description
  = flat_map row_steps_spec after
  /\ forall line,
       (length (row_steps_spec line) = 1
        <-> PyStr.startswith "|" line = true /\ 3 <= length (row_cells_spec line))
       /\ (row_steps_spec line = []
           <-> ~ (PyStr.startswith "|" line = true
                  /\ 3 <= length (row_cells_spec line)))
       /\ forall c0 c1 c2 rest,
            PyStr.startswith "|" line = true ->
            row_cells_spec line = c0 :: c1 :: c2 :: rest ->
            row_steps_spec line = [mkTestStep c0 c1 c2].
Proof.
  intros Hpipe Hlines Hbefore Hheader. split.
  - unfold _extract_test_steps_from_description. rewrite Hpipe, Hlines.
    rewrite pipe_table_loop_before by done.
    rewrite pipe_table_loop_cons, Hheader. simpl.
    by rewrite pipe_table_loop_after.
  - intros line. split; [apply row_steps_spec_one|].
    split; [apply row_steps_spec_none|].
    intros c0 c1 c2 rest Hstart Hcells. unfold row_steps_spec.
    by rewrite Hstart, Hcells.
Qed.

Lemma C4_pipe_table_rows_witness :
  _extract_test_steps_from_description scenario_description
  = flat_map row_steps_spec ["|Login|Enter user|Dashboard shown|"]
  /\ forall line,
       (length (row_steps_spec line) = 1
        <-> PyStr.startswith "|" line = true /\ 3 <= length (row_cells_spec line))
       /\ (row_steps_spec line = []
           <-> ~ (PyStr.startswith "|" line = true
                  /\ 3 <= length (row_cells_spec line)))
       /\ forall c0 c1 c2 rest,
            PyStr.startswith "|" line = true ->
            row_cells_spec line = c0 :: c1 :: c2 :: rest ->
            row_steps_spec line = [mkTestStep c0 c1 c2].
Proof.
  apply (C4_pipe_table_rows scenario_description [] "||Test|Step|Expected||"
           ["|Login|Enter user|Dashboard shown|"]).
  - reflexivity.
  - reflexivity.
  - constructor.
  - reflexivity.
Defined.

(** A description with the double pipe somewhere but no line that begins
    with it has no header, and yields no step. *)
Lemma pipe_table_without_header description :
  PyStr.contains "||" description = true ->
  Forall (fun l => PyStr.startswith "||" l = false)
    (PyStr.split newline description) ->
  _extract_test_steps_from_description description = [].
Proof.
  intros Hpipe Hnone. unfold _extract_test_steps_from_description.
  rewrite Hpipe. by apply pipe_table_loop_no_header.
Qed.

Example pipe_table_examples :
  _extract_test_steps_from_description
    ("intro" +:+ String newline "|early|row|ignored|" +:+ String newline
     "||T|S|E||" +:+ String newline "| a | b | c | d |" +:+ String newline
     "|only|two|" +:+ String newline "text" +:+ String newline
     "||x|y|z||")
  = [mkTestStep "a" "b" "c"; mkTestStep "x" "y" "z"]
  /\ _extract_test_steps_from_description "a || b" = [].
Proof. split; reflexivity. Qed.

(** *** Trimming *)

Lemma step_of_cells_trimmed cells :
  Forall (fun c => PyStr.trimmed c = true) cells ->
  step_trimmed (step_of_cells cells) = true.
Proof.
  intros Hall. unfold step_trimmed, step_of_cells. simpl.
  by rewrite !nth_trimmed.
Qed.

Lemma pipe_table_loop_trimmed lines header_found acc :
  Forall (fun s => step_trimmed s = true) acc ->
  Forall (fun s => step_trimmed s = true) (pipe_table_loop lines header_found acc).
Proof.
  revert header_found acc.
  induction lines as [|l lines IH]; intros header_found acc Hacc; [done|].
  rewrite pipe_table_loop_cons.
  destruct (_ && negb header_found); [by apply IH|].
  destruct (_ && header_found); [|by apply IH].
  destruct (3 <=? _)%nat; [|by apply IH].
  apply IH, Forall_app. split; [done|].
  constructor; [|done]. apply step_of_cells_trimmed, clean_cells_trimmed.
Qed.

(** In the pipe-table encoding every cell of every step is trimmed. *)
Lemma pipe_table_cells_trimmed description :
  PyStr.contains "||" description = true ->
  Forall (fun s => step_trimmed s = true)
    (_extract_test_steps_from_description description).
Proof.
  intros Hpipe. unfold _extract_test_steps_from_description. rewrite Hpipe.
  by apply pipe_table_loop_trimmed.
Qed.

(** *** The HTML encoding *)



(** C5: the extraction never raises and drops the rows with fewer than three
    cells in both encodings, and it trims the cells of the pipe-table
    encoding; but the cells of the HTML encoding are taken as they are: the
    description [padded_html] gives a step whose first cell keeps its
    blanks. *)
Theorem C5_html_cells_not_trimmed :
  _extract_test_steps_from_description padded_html
  = [mkTestStep " Login " "Enter user" "Dashboard shown"]
  /\ Forall (fun s => step_trimmed s = false)
       (_extract_test_steps_from_description padded_html).
Proof. vm_compute. split; [reflexivity|]. repeat constructor. Qed.

(** * Further properties of the code *)

(** ** Step extractor *)





Example headerless_html_steps :
  _extract_test_steps_from_description headerless_html = [mkTestStep "d" "e" "f"].
Proof. reflexivity. Qed.

Lemma clean_cells_filled cells :
  Forall (fun c => PyStr.truthy c = true) (clean_cells cells).
Proof.
  unfold clean_cells. apply Forall_forall. intros c Hc.
  apply list_elem_of_fmap in Hc as (c' & -> & Hc').
  apply list_elem_of_In, filter_In in Hc'. apply Hc'.
Qed.

Lemma step_of_cells_filled cells :
  Forall (fun c => PyStr.truthy c = true) cells ->
  3 <= length cells ->
  step_filled (step_of_cells cells) = true.
Proof.
  intros Hall Hlen.
  destruct cells as [|c0 [|c1 [|c2 rest]]]; simpl in Hlen; try lia.
  apply Forall_cons in Hall as [H0 Hall].
  apply Forall_cons in Hall as [H1 Hall].
  apply Forall_cons in Hall as [H2 _].
  unfold step_filled. simpl. by rewrite H0, H1, H2.
Qed.

Lemma pipe_table_loop_filled lines header_found acc :
  Forall (fun s => step_filled s = true) acc ->
  Forall (fun s => step_filled s = true) (pipe_table_loop lines header_found acc).
Proof.
  revert header_found acc.
  induction lines as [|l lines IH]; intros header_found acc Hacc; [done|].
  rewrite pipe_table_loop_cons.
  destruct (_ && negb header_found); [by apply IH|].
  destruct (_ && header_found); [|by apply IH].
  destruct (3 <=? _)%nat eqn:Hlen; [|by apply IH].
  apply IH, Forall_app. split; [done|].
  constructor; [|done].
  apply step_of_cells_filled; [apply clean_cells_filled|].
  by apply Nat.leb_le.
Qed.

(** X2: in a description of the pipe-table encoding every step has three
    cells that are not empty and have no whitespace at either end. *)
Theorem X2_pipe_cells_filled_and_trimmed (description : string) :
  PyStr.contains "||" description = true ->
  Forall (fun s => step_filled s = true /\ step_trimmed s = true)
    (_extract_test_steps_from_description description).
Proof.
  intros Hpipe. apply Forall_and. split.
  - unfold _extract_test_steps_from_description. rewrite Hpipe.
    by apply pipe_table_loop_filled.
  - by apply pipe_table_cells_trimmed.
Qed.

Lemma X2_pipe_cells_filled_and_trimmed_witness :
  Forall (fun s => step_filled s = true /\ step_trimmed s = true)
    (_extract_test_steps_from_description scenario_description).
Proof. apply (X2_pipe_cells_filled_and_trimmed scenario_description). reflexivity. Defined.

(** X3: a description that holds a double pipe somewhere, but no line that
    begins with one, yields no step at all: the pipe encoding is chosen, it
    finds no header, and an HTML table in the same text is not read. *)
Theorem X3_double_pipe_hides_html (description : string) :
  PyStr.contains "||" description = true ->
  Forall (fun l => PyStr.startswith "||" l = false)
    (PyStr.split newline description) ->
  _extract_test_steps_from_description description = [].
Proof.
  intros Hpipe Hnone. unfold _extract_test_steps_from_description.
  rewrite Hpipe. rewrite <- (app_nil_r (PyStr.split newline description)).
  by rewrite pipe_table_loop_before.
Qed.

Lemma X3_double_pipe_hides_html_witness :
  _extract_test_steps_from_description prose_then_html = [].
Proof.
  apply (X3_double_pipe_hides_html prose_then_html).
  - reflexivity.
  - vm_compute. repeat constructor.
Defined.

(** ** Links and test cases of the tracker *)

(** X4: when the issue of a key is fetched and its links are read without
    an error, the dependencies the resolver finds are the blocking keys the
    client finds for the same issue, in the same order. *)
Theorem X4_dependencies_are_blocking_keys (self : DependencyResolver)
    (test_key : string) (i : Issue) (keys : list string) :
  issue (jira (jira_client self)) test_key = Ok i ->
  _find_blocking_issues i = Ok keys ->
  _find_dependencies self test_key = keys.
Proof.
  intros Hissue Hkeys. rewrite find_dependencies_cases.
  by rewrite Hissue, Hkeys.
Qed.

Lemma X4_dependencies_are_blocking_keys_witness :
  _find_dependencies (resolver_with []) "X" = ["Y"].
Proof.
  apply (X4_dependencies_are_blocking_keys (resolver_with []) "X" issue_X ["Y"]);
    reflexivity.
Defined.

(** X5: a link whose type name, in lower case, is neither "blocks" nor
    "is blocked by" gives no key and raises nothing, whatever issue it
    carries and whether its inward label can be read or not. *)
Theorem X5_other_link_types_ignored (link : IssueLink) (n : string) :
  name (type_ link) = Some n ->
  in_list (PyStr.lower n) ["blocks"; "is blocked by"] = false ->
  link_blocker link = Ok None.
Proof.
  intros Hname Hother.
  assert (Hblocks : String.eqb (PyStr.lower n) "blocks" = false).
  { destruct (String.eqb (PyStr.lower n) "blocks") eqn:Heq; [|done].
    unfold in_list in Hother. cbn [existsb] in Hother.
    by rewrite Heq in Hother. }
  unfold link_blocker. rewrite Hname. cbn [label_lower].
  destruct (inwardIssue link), (outwardIssue link);
    by rewrite ?Hother, ?Hblocks.
Qed.

Lemma X5_other_link_types_ignored_witness :
  link_blocker (relates_to "Y") = Ok None.
Proof.
  apply (X5_other_link_types_ignored (relates_to "Y") "Relates"); reflexivity.
Defined.




Example inherited_steps_first :
  get_test_case_by_key steps_client "W"
  = Some (mkTestCase "W" "6" "Pay" "To Do"
            [mkTestStep "Login" "Enter user" "Dashboard shown";
             mkTestStep "Pay" "Press pay" "Receipt shown"]).
Proof. reflexivity. Qed.

Lemma process_test_case_cases self i :
  if issue_unreadable i
  then exists e, _process_test_case self i = Raise e
  else exists tc, _process_test_case self i = Ok tc
                  /\ key tc = issue_key i
                  /\ status tc = fields_status_name i.
Proof.
  unfold issue_unreadable, _process_test_case, _find_blocking_issues.
  destruct (existsb link_fails _) eqn:Hlinks.
  - destruct (blocking_loop_fails _ [] Hlinks) as [e ->]. eauto.
  - destruct (blocking_loop_succeeds _ [] Hlinks) as [keys ->]. eauto.
Qed.

Lemma process_loop_cases self issues acc :
  if existsb issue_unreadable issues
  then exists e, process_loop self issues acc = Raise e
  else exists tcs, process_loop self issues acc = Ok (acc ++ tcs)
                   /\ map key tcs = map issue_key issues
                   /\ map status tcs = map fields_status_name issues.
Proof.
  revert acc. induction issues as [|i issues IH]; intros acc.
  - simpl. exists []. by rewrite app_nil_r.
  - cbn [existsb process_loop].
    pose proof (process_test_case_cases self i) as Hi.
    destruct (issue_unreadable i).
    + destruct Hi as [e ->]. simpl. eauto.
    + destruct Hi as (tc & -> & Hkey & Hstatus). simpl.
      specialize (IH (acc ++ [tc])).
      destruct (existsb issue_unreadable issues); [done|].
      destruct IH as (tcs & -> & Hkeys & Hstatuses).
      exists (tc :: tcs). rewrite <- app_assoc. simpl.
      by rewrite Hkey, Hstatus, Hkeys, Hstatuses.
Qed.

(** X7: a listing by status is all or nothing. When the search answers, the
    listing raises if some found issue has a link that cannot be read, and
    otherwise returns one test case per found issue, in the order of the
    search and with the key and the status of the issue. *)
Theorem X7_listing_all_or_nothing (self : JiraClient) (st : string)
    (issues : list Issue) :
  search_issues (jira self) (jql_query (project_key self) st) 100 = Ok issues ->
  if existsb issue_unreadable issues
  then exists e, get_test_cases_by_status self st = Raise e
  else exists tcs, get_test_cases_by_status self st = Ok tcs
                   /\ map key tcs = map issue_key issues
                   /\ map status tcs = map fields_status_name issues.
Proof.
  intros Hsearch. unfold get_test_cases_by_status. rewrite Hsearch.
  apply (process_loop_cases self issues []).
Qed.

Lemma X7_listing_all_or_nothing_witness :
  (exists e, get_test_cases_by_status steps_client "To Do" = Raise e)
  /\ (exists tcs, get_test_cases_by_status steps_client "Done" = Ok tcs
                  /\ map key tcs = map issue_key [issue_V]
                  /\ map status tcs = map fields_status_name [issue_V]).
Proof.
  split.
  - apply (X7_listing_all_or_nothing steps_client "To Do" [issue_W; issue_Z]).
    reflexivity.
  - apply (X7_listing_all_or_nothing steps_client "Done" [issue_V]).
    reflexivity.
Defined.

(** X8: [get_test_case_by_key] returns nothing exactly when the fetch of the
    issue raises or one of its links cannot be read; and a test case it
    returns has the key of the issue that the tracker answered with. *)
Theorem X8_lookup_by_key (self : JiraClient) (k : string) :
  (get_test_case_by_key self k = None
   <-> dependency_lookup_fails (jira self) k = true)
  /\ forall tc, get_test_case_by_key self k = Some tc ->
       exists i, issue (jira self) k = Ok i /\ key tc = issue_key i.
Proof.
  unfold get_test_case_by_key, dependency_lookup_fails.
  destruct (issue (jira self) k) as [i|e]; [|by split].
  pose proof (process_test_case_cases self i) as Hi.
  fold (issue_unreadable i). destruct (issue_unreadable i).
  - destruct Hi as [e ->]. by split.
  - destruct Hi as (tc & -> & Hkey & _). split; [by split|].
    intros tc' [= <-]. eauto.
Qed.

(** ** The results file, further *)

(** X9: when the results file is missing or cannot be decoded,
    [load_test_results] returns an empty collection instead of raising, so
    no key counts as completed; and if its write succeeds the file then
    holds the empty collection, whatever it held before. *)
Theorem X9_load_resets_unusable_file (w : World) :
  results_file w = FileMissing \/ results_file w = FileUndecodable ->
  exists w',
    load_test_results w = (Ok [], w')
    /\ get_completed_test_keys w = (Ok [], w')
    /\ (next_write_succeeds w = true -> results_file w' = FileJson []).
Proof.
  intros Hfile.
  assert (Hload : load_test_results w
                  = (_ <- save_test_results [] ;; ret []) w).
  { unfold load_test_results. by destruct Hfile as [-> | ->]. }
  unfold get_completed_test_keys, bind at 1. rewrite Hload.
  unfold bind, save_test_results, ret, next_write_succeeds.
  destruct (writes w) as [|[] ws]; simpl;
    eexists; (split; [reflexivity|]); (split; [reflexivity|]); done.
Qed.

Lemma X9_load_resets_unusable_file_witness :
  exists w',
    load_test_results (sample_world FileUndecodable) = (Ok [], w')
    /\ get_completed_test_keys (sample_world FileUndecodable) = (Ok [], w')
    /\ (next_write_succeeds (sample_world FileUndecodable) = true ->
        results_file w' = FileJson []).
Proof.
  apply (X9_load_resets_unusable_file (sample_world FileUndecodable)).
  right. reflexivity.
Defined.

Lemma existing_index_first k before x after :
  Forall (fun r => test_case_key r <> k) before ->
  test_case_key x = k ->
  existing_index k 0 (before ++ x :: after) = Some (length before).
Proof.
  intros Hbefore Hx. induction Hbefore as [|r before Hr _ IH]; simpl.
  - by rewrite Hx, String.eqb_refl.
  - apply String.eqb_neq in Hr. rewrite Hr, existing_index_shift, IH. done.
Qed.

Lemma updated_results_idempotent test_result results :
  updated_results test_result (updated_results test_result results)
  = updated_results test_result results.
Proof.
  destruct (updated_results_cases test_result results)
    as [(before & old & after & -> & Hold & Hbefore & ->)|[Hall ->]].
  - unfold updated_results at 1.
    rewrite (existing_index_first _ before test_result after) by done.
    apply insert_at_length.
  - unfold updated_results at 1.
    rewrite (existing_index_first _ results test_result []) by done.
    apply insert_at_length.
Qed.

(** X10: storing the same result twice is the same as storing it once: the
    second successful [update_test_result] leaves the collection of the
    first. *)
Theorem X10_update_idempotent (w w1 w2 : World) (results : list TestResult)
    (test_result : TestResult) :
  results_file w = FileJson results ->
  update_test_result test_result w = (Ok true, w1) ->
  update_test_result test_result w1 = (Ok true, w2) ->
  results_file w1 = FileJson (updated_results test_result results)
  /\ results_file w2 = results_file w1.
Proof.
  intros Hfile Hrun1 Hrun2.
  rewrite (update_test_result_json w results) in Hrun1 by done.
  apply save_test_results_true in Hrun1.
  rewrite (update_test_result_json w1 _ _ Hrun1) in Hrun2.
  apply save_test_results_true in Hrun2.
  split; [done|]. by rewrite Hrun2, Hrun1, updated_results_idempotent.
Qed.

Lemma X10_update_idempotent_witness :
  results_file (sample_world (FileJson [second_result; sample_blocked]))
  = FileJson (updated_results second_result [first_result; sample_blocked])
  /\ results_file (sample_world (FileJson [second_result; sample_blocked]))
     = results_file (sample_world (FileJson [second_result; sample_blocked])).
Proof.
  apply (X10_update_idempotent
           (sample_world (FileJson [first_result; sample_blocked]))
           (sample_world (FileJson [second_result; sample_blocked]))
           (sample_world (FileJson [second_result; sample_blocked]))
           [first_result; sample_blocked] second_result); reflexivity.
Defined.

Lemma is_test_completed_json w results k :
  results_file w = FileJson results ->
  is_test_completed k w = (Ok (in_list k (completed_of results)), w).
Proof.
  intros Hfile. unfold is_test_completed, bind at 1.
  by rewrite (get_completed_test_keys_json w results).
Qed.

Lemma updated_results_contains test_result results :
  test_result ∈ updated_results test_result results.
Proof.
  destruct (updated_results_cases test_result results)
    as [(before & old & after & _ & _ & _ & ->)|[_ ->]];
    apply elem_of_app; right; apply elem_of_cons; by left.
Qed.

Lemma NoDup_map_inj_on {A B} (f : A -> B) (l : list A) (x y : A) :
  NoDup (map f l) -> x ∈ l -> y ∈ l -> f x = f y -> x = y.
Proof.
  induction l as [|z l IH]; simpl; [by intros _ Hx; apply elem_of_nil in Hx|].
  rewrite NoDup_cons. intros [Hz Hl] Hx Hy Hf.
  apply elem_of_cons in Hx as [->|Hx]; apply elem_of_cons in Hy as [->|Hy].
  - done.
  - exfalso. apply Hz. rewrite Hf. by apply list_elem_of_fmap_2.
  - exfalso. apply Hz. rewrite <- Hf. by apply list_elem_of_fmap_2.
  - by apply IH.
Qed.

(** X11: after a successful [update_test_result], [is_test_completed] on the
    submitted key is true when the submitted result is "Pass" or "Fail";
    and when it is anything else and the collection had at most one record
    per key, it is false, even if the key was completed before. *)
Theorem X11_submit_then_completed (w w1 : World) (results : list TestResult)
    (test_result : TestResult) :
  results_file w = FileJson results ->
  update_test_result test_result w = (Ok true, w1) ->
  (in_list (overall_result test_result) ["Pass"; "Fail"] = true ->
   is_test_completed (test_case_key test_result) w1 = (Ok true, w1))
  /\ (in_list (overall_result test_result) ["Pass"; "Fail"] = false ->
      NoDup (map test_case_key results) ->
      is_test_completed (test_case_key test_result) w1 = (Ok false, w1)).
Proof.
  intros Hfile Hrun.
  rewrite (update_test_result_json w results) in Hrun by done.
  apply save_test_results_true in Hrun.
  rewrite (is_test_completed_json w1 _ _ Hrun).
  pose proof (updated_results_contains test_result results) as Hmem.
  split.
  - intros Hfinal. f_equal. f_equal.
    apply in_list_spec, completed_of_elem.
    exists test_result. split; [done|]. split; [done|].
    apply in_list_spec in Hfinal.
    by rewrite elem_of_cons, list_elem_of_singleton in Hfinal.
  - intros Hother Hnodup. f_equal. f_equal.
    destruct (in_list _ (completed_of _)) eqn:Hin; [|done].
    apply in_list_spec, completed_of_elem in Hin as (r & Hr & Hkey & Hres).
    assert (r = test_result) as ->.
    { apply (NoDup_map_inj_on test_case_key
               (updated_results test_result results)); try done.
      by apply updated_results_NoDup. }
    assert (in_list (overall_result test_result) ["Pass"; "Fail"] = true).
    { apply in_list_spec. by rewrite elem_of_cons, list_elem_of_singleton. }
    congruence.
Qed.

Lemma X11_submit_then_completed_witness :
  (in_list (overall_result second_result) ["Pass"; "Fail"] = true ->
   is_test_completed (test_case_key second_result)
     (sample_world (FileJson [second_result; sample_blocked]))
   = (Ok true, sample_world (FileJson [second_result; sample_blocked])))
  /\ (in_list (overall_result second_result) ["Pass"; "Fail"] = false ->
      NoDup (map test_case_key [first_result; sample_blocked]) ->
      is_test_completed (test_case_key second_result)
        (sample_world (FileJson [second_result; sample_blocked]))
      = (Ok false, sample_world (FileJson [second_result; sample_blocked]))).
Proof.
  apply (X11_submit_then_completed
           (sample_world (FileJson [first_result; sample_blocked]))
           (sample_world (FileJson [second_result; sample_blocked]))
           [first_result; sample_blocked] second_result); reflexivity.
Defined.

Example blocked_result_uncompletes :
  completed_of [sample_passed] = ["T-1"]
  /\ completed_of (updated_results (mkTestResult "T-1" [] "Blocked" "t9")
                     [sample_passed]) = [].
Proof. split; reflexivity. Qed.

Lemma completed_of_other_key (k : string) (l1 l2 : list TestResult) (k' : string) :
  List.filter (other_key k) l1 = List.filter (other_key k) l2 ->
  k' <> k ->
  k' ∈ completed_of l1 -> k' ∈ completed_of l2.
Proof.
  intros Hfilter Hne Hin.
  apply completed_of_elem in Hin as (r & Hr & Hkey & Hres).
  apply completed_of_elem. exists r. split; [|done].
  assert (Hkeep : other_key k r = true).
  { unfold other_key. apply negb_true_iff, String.eqb_neq. congruence. }
  assert (Hfil : In r (List.filter (other_key k) l1)).
  { apply filter_In. split; [by apply list_elem_of_In | done]. }
  rewrite Hfilter in Hfil. apply filter_In in Hfil as [Hfil _].
  by apply list_elem_of_In.
Qed.

(** X12: a successful [update_test_result] does not change whether any
    other key is completed. *)
Theorem X12_other_keys_completion_kept (w w1 : World)
    (results : list TestResult) (test_result : TestResult) (k : string) :
  results_file w = FileJson results ->
  update_test_result test_result w = (Ok true, w1) ->
  k <> test_case_key test_result ->
  fst (is_test_completed k w1) = fst (is_test_completed k w).
Proof.
  intros Hfile Hrun Hne.
  rewrite (update_test_result_json w results) in Hrun by done.
  apply save_test_results_true in Hrun.
  rewrite (is_test_completed_json w1 _ _ Hrun).
  rewrite (is_test_completed_json w _ _ Hfile). simpl. f_equal.
  pose proof (updated_results_frame test_result results) as Hframe.
  destruct (in_list k (completed_of results)) eqn:Hold.
  - apply in_list_spec. apply in_list_spec in Hold.
    by apply (completed_of_other_key _ _ _ _ (eq_sym Hframe)).
  - destruct (in_list k (completed_of (updated_results _ _))) eqn:Hnew; [|done].
    apply in_list_spec in Hnew.
    apply (completed_of_other_key _ _ _ _ Hframe Hne), in_list_spec in Hnew.
    congruence.
Qed.

Lemma X12_other_keys_completion_kept_witness :
  fst (is_test_completed "T-2"
         (sample_world (FileJson [second_result; sample_blocked])))
  = fst (is_test_completed "T-2"
           (sample_world (FileJson [first_result; sample_blocked]))).
Proof.
  apply (X12_other_keys_completion_kept
           (sample_world (FileJson [first_result; sample_blocked]))
           (sample_world (FileJson [second_result; sample_blocked]))
           [first_result; sample_blocked] second_result "T-2");
    [reflexivity | reflexivity | discriminate].
Defined.

(** X13: a first submission when the results file is missing or cannot be
    decoded stores a collection with that one record, provided the write
    after the reset of the file succeeds; whether the reset itself could be
    written does not matter. *)
Theorem X13_first_submission (w : World) (test_result : TestResult) :
  results_file w = FileMissing \/ results_file w = FileUndecodable ->
  second_write_succeeds w = true ->
  exists w', update_test_result test_result w = (Ok true, w')
             /\ results_file w' = FileJson [test_result].
Proof.
  intros Hfile Hwrite.
  assert (Hload : load_test_results w
                  = (_ <- save_test_results [] ;; ret []) w).
  { unfold load_test_results. by destruct Hfile as [-> | ->]. }
  unfold update_test_result, bind at 1. rewrite Hload.
  unfold second_write_succeeds in Hwrite.
  unfold bind, save_test_results, ret.
  destruct (writes w) as [|o ws]; [simpl; eauto|].
  destruct o; simpl; destruct ws as [|[] ws']; simpl in *; try done; eauto.
Qed.

Lemma X13_first_submission_witness :
  exists w', update_test_result second_result fresh_world = (Ok true, w')
             /\ results_file w' = FileJson [second_result].
Proof.
  apply (X13_first_submission fresh_world second_result).
  - left. reflexivity.
  - reflexivity.
Defined.

(** ** Dependency resolver, further *)

Lemma head_filter_Some {A} (f : A -> bool) (l : list A) (x : A) :
  head (List.filter f l) = Some x -> x ∈ l /\ f x = true.
Proof.
  induction l as [|y l IH]; simpl; [done|].
  destruct (f y) eqn:Hy; simpl.
  - intros [= ->]. split; [apply elem_of_cons; by left | done].
  - intros H. destruct (IH H) as [Hin Hx].
    split; [apply elem_of_cons; by right | done].
Qed.

Lemma head_filter_None {A} (f : A -> bool) (l : list A) :
  head (List.filter f l) = None -> forall x, x ∈ l -> f x = false.
Proof.
  induction l as [|y l IH]; simpl; intros H x Hx.
  - by apply elem_of_nil in Hx.
  - destruct (f y) eqn:Hy; [done|].
    apply elem_of_cons in Hx as [->|Hx]; [done | by apply IH].
Qed.

Lemma can_execute_true self t :
  _can_execute_test self t = true ->
  (key t ∉ completed_tests self)
  /\ forall d, d ∈ _find_dependencies self (key t) -> d ∈ completed_tests self.
Proof.
  unfold _can_execute_test.
  destruct (bool_decide (key t ∈ completed_tests self)) eqn:Hkey; [done|].
  apply bool_decide_eq_false in Hkey. intros Hall.
  split; [done | by apply forallb_completed].
Qed.

Lemma can_execute_false self t :
  _can_execute_test self t = false ->
  (key t ∈ completed_tests self)
  \/ (exists d, d ∈ _find_dependencies self (key t) /\ d ∉ completed_tests self).
Proof.
  unfold _can_execute_test.
  destruct (bool_decide (key t ∈ completed_tests self)) eqn:Hkey.
  - apply bool_decide_eq_true in Hkey. by left.
  - intros Hnot. right.
    induction (_find_dependencies self (key t)) as [|d deps IH];
      simpl in Hnot; [done|].
    apply andb_false_iff in Hnot as [Hd|Hrest].
    + apply bool_decide_eq_false in Hd. exists d.
      split; [apply elem_of_cons; by left | done].
    + destruct (IH Hrest) as (d' & Hin & Hd').
      exists d'. split; [apply elem_of_cons; by right | done].
Qed.

Lemma get_next_test_head self candidates :
  get_test_cases_by_status (jira_client self) "To Do" = Ok candidates ->
  get_next_test self
  = Ok (head (List.filter (_can_execute_test self) candidates)).
Proof.
  intros Hget. unfold get_next_test, find_executable_tests.
  rewrite Hget, executable_loop_filter. simpl.
  by destruct (List.filter _ candidates).
Qed.

(** X14: when the tracker lists the To Do candidates, [get_next_test] does
    not raise; a test it returns is one of the candidates, is not in the
    cached completed set and has all its dependencies in it; and when it
    returns nothing, every candidate is completed or has a dependency that
    is not. *)
Theorem X14_next_test_sound (self : DependencyResolver)
    (candidates : list TestCase) :
  get_test_cases_by_status (jira_client self) "To Do" = Ok candidates ->
  match get_next_test self with
  | Ok (Some t) =>
      t ∈ candidates
      /\ (key t ∉ completed_tests self)
      /\ forall d, d ∈ _find_dependencies self (key t) ->
                   d ∈ completed_tests self
  | Ok None =>
      forall t, t ∈ candidates ->
        (key t ∈ completed_tests self)
        \/ (exists d, d ∈ _find_dependencies self (key t)
                      /\ d ∉ completed_tests self)
  | Raise _ => False
  end.
Proof.
  intros Hget. rewrite (get_next_test_head self candidates Hget).
  destruct (head _) as [t|] eqn:Hhead.
  - apply head_filter_Some in Hhead as [Hin Hexec].
    split; [done|]. by apply can_execute_true.
  - intros t Hin. apply can_execute_false.
    by apply (head_filter_None _ _ Hhead).
Qed.

Lemma X14_next_test_sound_witness :
  match get_next_test (resolver_with []) with
  | Ok (Some t) =>
      t ∈ [case_X; case_Y]
      /\ (key t ∉ completed_tests (resolver_with []))
      /\ forall d, d ∈ _find_dependencies (resolver_with []) (key t) ->
                   d ∈ completed_tests (resolver_with [])
  | Ok None =>
      forall t, t ∈ [case_X; case_Y] ->
        (key t ∈ completed_tests (resolver_with []))
        \/ (exists d, d ∈ _find_dependencies (resolver_with []) (key t)
                      /\ d ∉ completed_tests (resolver_with []))
  | Raise _ => False
  end.
Proof.
  apply (X14_next_test_sound (resolver_with []) [case_X; case_Y]). reflexivity.
Defined.

Lemma find_dependencies_same_client r1 r2 k :
  jira_client r1 = jira_client r2 ->
  _find_dependencies r1 k = _find_dependencies r2 k.
Proof. intros H. unfold _find_dependencies. by rewrite H. Qed.

(** X15: completing more tests never blocks a test: with the same tracker, a
    test that can be executed with one cached set can be executed with any
    larger one that does not hold its own key. *)
Theorem X15_can_execute_monotone (r1 r2 : DependencyResolver) (t : TestCase) :
  jira_client r1 = jira_client r2 ->
  completed_tests r1 ⊆ completed_tests r2 ->
  key t ∉ completed_tests r2 ->
  _can_execute_test r1 t = true ->
  _can_execute_test r2 t = true.
Proof.
  intros Hclient Hsub Hkey Hexec.
  apply can_execute_true in Hexec as [_ Hdeps].
  unfold _can_execute_test. rewrite bool_decide_eq_false_2 by done.
  apply forallb_completed. intros d Hd.
  rewrite <- (find_dependencies_same_client r1 r2 _ Hclient) in Hd.
  apply Hsub. by apply Hdeps.
Qed.

Lemma X15_can_execute_monotone_witness :
  _can_execute_test (resolver_with ["Y"; "Z"]) case_X = true.
Proof.
  apply (X15_can_execute_monotone (resolver_with ["Y"]) (resolver_with ["Y"; "Z"])
           case_X).
  - reflexivity.
  - refine (bool_decide_unpack _ _). vm_compute. exact I.
  - refine (bool_decide_unpack _ _). vm_compute. exact I.
  - vm_compute. reflexivity.
Defined.

(** X16: a test whose issue is blocked by itself can never be executed,
    whatever the cached set is; and of two tests that block each other,
    neither can be executed while neither is completed. *)
Theorem X16_blocking_cycles (self : DependencyResolver) (t : TestCase) :
  (key t ∈ _find_dependencies self (key t) ->
   _can_execute_test self t = false)
  /\ (forall t' : TestCase,
        key t' ∈ _find_dependencies self (key t) ->
        key t ∈ _find_dependencies self (key t') ->
        key t ∉ completed_tests self ->
        key t' ∉ completed_tests self ->
        _can_execute_test self t = false /\ _can_execute_test self t' = false).
Proof.
  assert (Hblocked : forall (u : TestCase) d,
    d ∈ _find_dependencies self (key u) -> d ∉ completed_tests self ->
    _can_execute_test self u = false).
  { intros u d Hd Hnot. destruct (_can_execute_test self u) eqn:Hexec; [|done].
    apply can_execute_true in Hexec as [_ Hdeps]. by apply Hdeps in Hd. }
  split.
  - intros Hself.
    destruct (decide (key t ∈ completed_tests self)) as [Hin|Hnot].
    + unfold _can_execute_test. by rewrite bool_decide_eq_true_2.
    + by apply (Hblocked t (key t)).
  - intros t' Hdep Hback Hnot Hnot'. split.
    + by apply (Hblocked t (key t')).
    + by apply (Hblocked t' (key t)).
Qed.

Lemma X16_blocking_cycles_witness :
  _can_execute_test (cycle_resolver ["P"; "Q"]) case_S = false
  /\ _can_execute_test (cycle_resolver [])
       (mkTestCase "P" "8" "First" "To Do" []) = false
  /\ _can_execute_test (cycle_resolver [])
       (mkTestCase "Q" "9" "Second" "To Do" []) = false.
Proof.
  split.
  - apply (proj1 (X16_blocking_cycles (cycle_resolver ["P"; "Q"]) case_S)).
    refine (bool_decide_unpack _ _). vm_compute. exact I.
  - apply (proj2 (X16_blocking_cycles (cycle_resolver [])
                    (mkTestCase "P" "8" "First" "To Do" []))
             (mkTestCase "Q" "9" "Second" "To Do" [])).
    + refine (bool_decide_unpack _ _). vm_compute. exact I.
    + refine (bool_decide_unpack _ _). vm_compute. exact I.
    + refine (bool_decide_unpack _ _). vm_compute. exact I.
    + refine (bool_decide_unpack _ _). vm_compute. exact I.
Defined.

(** X17: once a "Pass" or "Fail" result is stored and the cached set is
    refreshed, the resolver holds the submitted key as completed and no
    test with that key can be executed; the tracker client is kept. *)
Theorem X17_submitted_then_refreshed (w : World) (results : list TestResult)
    (test_result : TestResult) (self : DependencyResolver) :
  results_file w = FileJson results ->
  next_write_succeeds w = true ->
  in_list (overall_result test_result) ["Pass"; "Fail"] = true ->
  exists (w1 : World) (self' : DependencyResolver),
    (_ <- update_test_result test_result ;; refresh_completed_tests self) w
    = (Ok self', w1)
    /\ jira_client self' = jira_client self
    /\ test_case_key test_result ∈ completed_tests self'
    /\ forall t : TestCase, key t = test_case_key test_result ->
         _can_execute_test self' t = false.
Proof.
  intros Hfile Hwrite Hfinal.
  destruct (save_test_results_succeeds (updated_results test_result results) w Hwrite)
    as (w1 & Hsave & Hfile1).
  exists w1. eexists. split.
  { unfold bind at 1. rewrite (update_test_result_json w results) by done.
    rewrite Hsave. unfold refresh_completed_tests, bind.
    by rewrite (get_completed_test_keys_json w1 _ Hfile1). }
  assert (Hin : test_case_key test_result
                ∈ (list_to_set (completed_of (updated_results test_result results))
                   : gset string)).
  { apply elem_of_list_to_set, completed_of_elem. exists test_result.
    split; [apply updated_results_contains|]. split; [done|].
    apply in_list_spec in Hfinal.
    by rewrite elem_of_cons, list_elem_of_singleton in Hfinal. }
  simpl. split; [done|]. split; [done|].
  intros t Hkey. unfold _can_execute_test. simpl. rewrite Hkey.
  by rewrite bool_decide_eq_true_2.
Qed.

Lemma X17_submitted_then_refreshed_witness :
  exists (w1 : World) (self' : DependencyResolver),
    (_ <- update_test_result (mkTestResult "Y" [] "Pass" "t1") ;;
     refresh_completed_tests (resolver_with []))
      (sample_world (FileJson []))
    = (Ok self', w1)
    /\ jira_client self' = jira_client (resolver_with [])
    /\ test_case_key (mkTestResult "Y" [] "Pass" "t1") ∈ completed_tests self'
    /\ forall t : TestCase, key t = test_case_key (mkTestResult "Y" [] "Pass" "t1") ->
         _can_execute_test self' t = false.
Proof.
  apply (X17_submitted_then_refreshed (sample_world (FileJson [])) []
           (mkTestResult "Y" [] "Pass" "t1") (resolver_with [])); reflexivity.
Defined.

(** ** The endpoints, further *)

(** X18: if one of the three status queries of [get_incomplete_tests]
    raises, the answer is an error of status 500 whose detail is the message
    of that exception, and the results file is left as it is: it is not
    read, so a missing file is not created. *)
Theorem X18_incomplete_tests_tracker_failure (jc : JiraClient) (w : World)
    (e : string) :
  get_test_cases_by_status jc "To Do" = Raise e
  \/ (exists todo, get_test_cases_by_status jc "To Do" = Ok todo
                   /\ get_test_cases_by_status jc "In Progress" = Raise e)
  \/ (exists todo inprog,
        get_test_cases_by_status jc "To Do" = Ok todo
        /\ get_test_cases_by_status jc "In Progress" = Ok inprog
        /\ get_test_cases_by_status jc "Done" = Raise e) ->
  fst (get_incomplete_tests jc w) = Ok (HTTPException 500 e)
  /\ results_file (snd (get_incomplete_tests jc w)) = results_file w.
Proof.
  unfold get_incomplete_tests, try_except, bind, lift.
  intros [H1|[(todo & H1 & H2)|(todo & inprog & H1 & H2 & H3)]].
  - by rewrite H1.
  - by rewrite H1, H2.
  - by rewrite H1, H2, H3.
Qed.

Lemma X18_incomplete_tests_tracker_failure_witness :
  fst (get_incomplete_tests down_client (sample_world FileMissing))
  = Ok (HTTPException 500 "HTTP 503: Service Unavailable")
  /\ results_file (snd (get_incomplete_tests down_client (sample_world FileMissing)))
     = results_file (sample_world FileMissing).
Proof.
  apply (X18_incomplete_tests_tracker_failure down_client
           (sample_world FileMissing) "HTTP 503: Service Unavailable").
  left. reflexivity.
Defined.






Lemma save_test_results_keeps_logs results w b w' :
  save_test_results results w = (b, w') ->
  logs_writable w' = logs_writable w /\ logs w' = logs w
  /\ now_stamp w' = now_stamp w.
Proof.
  unfold save_test_results.
  destruct (writes w) as [|[] ws]; intros [= <- <-]; done.
Qed.

(** What [send_test_results] does once the record is saved and the line is
    logged: the three status queries decide the answer. *)
Lemma send_test_results_after_save submission jc w w1 results :
  results_file w = FileJson results ->
  save_test_results
    (updated_results (submitted_record submission (now w)) results) w
  = (Ok true, w1) ->
  logs_writable w = true ->
  send_test_results submission jc w
  = try_except
      (todo_tests <- lift (get_test_cases_by_status jc "To Do") ;;
       in_progress_tests <- lift (get_test_cases_by_status jc "In Progress") ;;
       done_tests <- lift (get_test_cases_by_status jc "Done") ;;
       let keys :=
         incomplete_keys todo_tests in_progress_tests done_tests
           (completed_of
              (updated_results (submitted_record submission (now w)) results)) in
       ret (JSONResponse 200
              (ResultsSaved "Test results saved successfully" "completed"
                 (0 <? size keys)%nat (size keys))))
      server_error
      (add_log (sub_test_case_key submission,
                log_line w ("Test completed with result: "
                            +:+ sub_overall_result submission)) w1).
Proof.
  intros Hfile Hsave Hlogs.
  pose proof (save_test_results_true _ _ _ Hsave) as Hfile1.
  destruct (save_test_results_keeps_logs _ _ _ _ Hsave) as (Hw & _ & Hstamp).
  unfold send_test_results, try_except. cbv zeta.
  unfold bind at 1. rewrite (update_test_result_json w results) by done.
  rewrite Hsave. cbn [negb].
  unfold bind at 1. rewrite (get_completed_test_keys_json w1 _ Hfile1).
  unfold bind at 1. unfold log_test_execution, log_line.
  by rewrite Hw, Hlogs, Hstamp.
Qed.



(** X21: an answer of status 500 does not mean that nothing was stored: when
    the record is saved and logged but a status query of the tracker then
    raises, [send_test_results] answers with the error of the tracker, and
    the file holds the updated collection. *)
Theorem X21_error_after_save (submission : TestResultSubmission)
    (jc : JiraClient) (w : World) (results : list TestResult) (e : string) :
  results_file w = FileJson results ->
  next_write_succeeds w = true ->
  logs_writable w = true ->
  get_test_cases_by_status jc "To Do" = Raise e ->
  exists w',
    send_test_results submission jc w = (Ok (HTTPException 500 e), w')
    /\ results_file w'
       = FileJson (updated_results (submitted_record submission (now w)) results).
Proof.
  intros Hfile Hwrite Hlogs H1.
  destruct (save_test_results_succeeds
              (updated_results (submitted_record submission (now w)) results)
              w Hwrite) as (w1 & Hsave & Hfile1).
  eexists. split.
  { rewrite (send_test_results_after_save submission jc w w1 results) by done.
    unfold try_except, bind, lift. rewrite H1. reflexivity. }
  done.
Qed.

Lemma X21_error_after_save_witness :
  exists w',
    send_test_results second_submission down_client
      (sample_world (FileJson [first_result]))
    = (Ok (HTTPException 500 "HTTP 503: Service Unavailable"), w')
    /\ results_file w'
       = FileJson (updated_results
                     (submitted_record second_submission
                        (now (sample_world (FileJson [first_result]))))
                     [first_result]).
Proof.
  apply (X21_error_after_save second_submission down_client
           (sample_world (FileJson [first_result])) [first_result]
           "HTTP 503: Service Unavailable"); reflexivity.
Defined.

(** *** The prompt endpoint *)

(** X22: a request for a key that [get_test_case_by_key] cannot resolve is
    answered with status 404 and the key in the message; no file is read or
    written and nothing is logged. *)
Theorem X22_prompt_unknown_key (request : TestPromptRequest) (jc : JiraClient)
    (no_key_case : option TestCase) (w : World) (k : string) :
  req_test_case_key request = Some k ->
  get_test_case_by_key jc k = None ->
  get_test_prompt request jc no_key_case w
  = (Ok (Answer (JSONResponse 404
           (Message ("Test case " +:+ k +:+ " not found")))), w).
Proof.
  intros Hreq Hnone.
  destruct request as [requested]. cbn in Hreq. subst requested.
  unfold get_test_prompt, try_except. cbn [req_test_case_key printed_key].
  by rewrite Hnone.
Qed.

Lemma X22_prompt_unknown_key_witness :
  get_test_prompt (mkPromptRequest (Some "Z")) dependency_client None empty_world
  = (Ok (Answer (JSONResponse 404
           (Message ("Test case " +:+ "Z" +:+ " not found")))), empty_world).
Proof.
  apply (X22_prompt_unknown_key (mkPromptRequest (Some "Z")) dependency_client
           None empty_world "Z"); reflexivity.
Defined.




Example prompt_refusals :
  fst (get_test_prompt (mkPromptRequest (Some "B")) scenario_client None
         scenario_world)
  = Ok (Answer (JSONResponse 400
          (Message "Test case B is already completed locally")))
  /\ fst (get_test_prompt (mkPromptRequest (Some "D")) scenario_client None
            scenario_world)
     = Ok (Answer (JSONResponse 400
             (Message "Test case D is already marked as Done in Jira"))).
Proof. vm_compute. done. Qed.



(** ** Prompt generator *)

Lemma str_app_cons a s t : String a s +:+ t = String a (s +:+ t).
Proof. reflexivity. Qed.

Lemma str_app_nil_r s : s +:+ EmptyString = s.
Proof. induction s as [|a s IH]; [done|]. by rewrite str_app_cons, IH. Qed.

Lemma str_app_assoc s t u : (s +:+ t) +:+ u = s +:+ (t +:+ u).
Proof. induction s as [|a s IH]; [done|]. by rewrite !str_app_cons, IH. Qed.

Lemma prompt_steps_loop_text i steps prompt :
  prompt_steps_loop i steps prompt = prompt +:+ steps_text i steps.
Proof.
  revert i prompt. induction steps as [|step steps IH]; intros i prompt;
    cbn [prompt_steps_loop steps_text].
  - by rewrite str_app_nil_r.
  - by rewrite IH, str_app_assoc.
Qed.








Lemma generate_prompt_text tc :
  generate_prompt tc
  = prompt_opening +:+ summary tc +:+ prompt_before_key +:+ key tc
    +:+ prompt_before_steps +:+ steps_text 1 (test_steps tc) +:+ prompt_closing.
Proof.
  unfold generate_prompt. cbv zeta.
  by rewrite prompt_steps_loop_text, !str_app_assoc.
Qed.



Lemma steps_text_shown i steps1 steps2 :
  map shown steps1 = map shown steps2 ->
  steps_text i steps1 = steps_text i steps2.
Proof.
  revert i steps2.
  induction steps1 as [|s1 steps1 IH]; intros i [|s2 steps2] Hshown;
    try done.
  cbn [map] in Hshown. injection Hshown as Hstep Hexp Hrest.
  cbn [steps_text]. unfold step_text.
  by rewrite Hstep, Hexp, (IH (S i) steps2).
Qed.

(** X26: the prompt depends only on the summary and the key of the test case
    and on the action and the expected result of each step: the id, the
    status and the label of a step do not show in it. *)
Theorem X26_prompt_ignores_labels (tc1 tc2 : TestCase) :
  summary tc1 = summary tc2 ->
  key tc1 = key tc2 ->
  map shown (test_steps tc1) = map shown (test_steps tc2) ->
  generate_prompt tc1 = generate_prompt tc2.
Proof.
  intros Hsummary Hkey Hsteps. rewrite !generate_prompt_text.
  by rewrite Hsummary, Hkey, (steps_text_shown 1 _ _ Hsteps).
Qed.

Lemma X26_prompt_ignores_labels_witness :
  generate_prompt prompt_case_1 = generate_prompt prompt_case_2.
Proof.
  apply (X26_prompt_ignores_labels prompt_case_1 prompt_case_2); reflexivity.
Defined.
